(** * Stock replenishment report: the tabular-data interpreter

    A shallow embedding of [stock_replenishment_report.py]: the header
    locator, the column resolver, the row extractor, the numeric coercer,
    the replenishment filter and the CSV export guard, together with the
    Python built-ins they rest on ([str], [str.lower], [str.strip],
    [re.sub], [in], [repr], [float]).

    Text is modelled by [string], each character standing for the code
    point of the same number (0..255).  Cell values are [None], a [str]
    or an [int] (a sheet read with formatted values holds texts only);
    column indices are what [enumerate] yields, natural numbers.  Floats
    are IEEE binary64 values ([spec_float] at precision 53 and maximal
    exponent 1024), and [float] of a text rounds its decimal value to the
    nearest of them, ties to even.  An exception is a [Raise] result. *)

From Stdlib Require Import ZArith NArith Ascii String List Bool Lia.
From Stdlib Require Import Sorting.Sorted Floats.SpecFloat.
From stdpp Require Import base option list gmap strings pretty.

Local Open Scope Z_scope.

(** ** Python values, exceptions and results *)

Inductive value : Type :=
| PyNone
| PyStr (s : string)
| PyInt (z : Z).

Inductive exn : Type :=
| ValueError (msg : string)
| TypeError (msg : string)
| KeyError (key : string)
| IndexError (msg : string)
| RuntimeError (msg : string).

Inductive result (A : Type) : Type :=
| Ok (a : A)
| Raise (e : exn).

Arguments Ok {A} a.
Arguments Raise {A} e.

(** Sequencing of calls that may raise: [x ← r; k] runs [k] on the value
    of [r] and lets an exception of [r] through. *)
#[global] Instance result_bind : MBind result := λ A B k r,
  match r with
  | Ok a => k a
  | Raise e => Raise e
  end.

Module Py.

(** *** Characters *)

Definition code (c : ascii) : N := N_of_ascii c.

Definition between (lo hi n : N) : bool := ((lo <=? n) && (n <=? hi))%N.

(** [str.isspace] on one character, as [str.strip] and the regular
    expression class [\s] use it. *)
Definition isspace (c : ascii) : bool :=
  let n := code c in
  between 9 13 n || between 28 32 n || (n =? 133)%N || (n =? 160)%N.

(** The C-locale [Py_ISSPACE] that [float] strips with, after code
    points from 127 up that are white space were turned into blanks. *)
Definition float_isspace (c : ascii) : bool :=
  let n := code c in
  between 9 13 n || (n =? 32)%N || (n =? 133)%N || (n =? 160)%N.

Definition lower_char (c : ascii) : ascii :=
  let n := code c in
  if between 65 90 n || between 192 214 n || between 216 222 n
  then ascii_of_N (n + 32)
  else c.

Definition isdigit (c : ascii) : bool := between 48 57 (code c).

Definition digit_value (c : ascii) : Z := Z.of_N (code c) - 48.

(** *** Strings *)

Fixpoint lower (s : string) : string :=
  match s with
  | EmptyString => EmptyString
  | String c s' => String (lower_char c) (lower s')
  end.

Fixpoint lstrip_with (sp : ascii → bool) (s : string) : string :=
  match s with
  | EmptyString => EmptyString
  | String c s' => if sp c then lstrip_with sp s' else s
  end.

Fixpoint rstrip_with (sp : ascii → bool) (s : string) : string :=
  match s with
  | EmptyString => EmptyString
  | String c s' =>
      match rstrip_with sp s' with
      | EmptyString => if sp c then EmptyString else String c EmptyString
      | r => String c r
      end
  end.

Definition strip (s : string) : string :=
  rstrip_with isspace (lstrip_with isspace s).

(** [re.sub(r'\s+', ' ', s)]: every maximal run of white space becomes
    one blank.  [in_run] tells that the previous character was white. *)
Fixpoint collapse_from (in_run : bool) (s : string) : string :=
  match s with
  | EmptyString => EmptyString
  | String c s' =>
      if isspace c
      then if in_run then collapse_from true s'
           else String " " (collapse_from true s')
      else String c (collapse_from false s')
  end.

Definition collapse_spaces (s : string) : string := collapse_from false s.

(** [s.replace(c, '')] for a one-character [c]. *)
Fixpoint remove_char (c : ascii) (s : string) : string :=
  match s with
  | EmptyString => EmptyString
  | String d s' =>
      if Ascii.eqb c d then remove_char c s' else String d (remove_char c s')
  end.

(** [sub in s]. *)
Fixpoint contains (sub s : string) : bool :=
  String.prefix sub s ||
  match s with
  | EmptyString => false
  | String _ s' => contains sub s'
  end.

(** [sep.join(parts)]. *)
Definition join (sep : string) (parts : list string) : string :=
  String.concat sep parts.

(** *** Truthiness, [str] and [repr] *)

Definition truthy (v : value) : bool :=
  match v with
  | PyNone => false
  | PyStr s => negb (String.eqb s EmptyString)
  | PyInt z => negb (z =? 0)
  end.

(** [str] of a cell.  For an [int] this is its decimal text; CPython
    from 3.11 on refuses to print an [int] of more than 4300 digits,
    which no sheet read delivers and which is left out here. *)
Definition str (v : value) : string :=
  match v with
  | PyNone => "None"
  | PyStr s => s
  | PyInt z => pretty z
  end.

Definition hex_digit (n : N) : ascii :=
  if (n <? 10)%N then ascii_of_N (48 + n) else ascii_of_N (87 + n).

(** The [\xhh] escape of a code point below 256. *)
Definition hex_escape (c : ascii) : string :=
  String "\" (String "x"
    (String (hex_digit (code c / 16)) (String (hex_digit (code c mod 16)) EmptyString))).

Definition quote1 : ascii := "'".
Definition quote2 : ascii := "034".

Fixpoint has_char (c : ascii) (s : string) : bool :=
  match s with
  | EmptyString => false
  | String d s' => Ascii.eqb c d || has_char c s'
  end.

Definition printable (c : ascii) : bool :=
  let n := code c in
  negb ((n <? 32)%N || between 127 160 n || (n =? 173)%N).

Fixpoint repr_body (q : ascii) (s : string) : string :=
  match s with
  | EmptyString => EmptyString
  | String c s' =>
      (if Ascii.eqb c q || Ascii.eqb c "\" then String "\" (String c EmptyString)
       else if Ascii.eqb c "009" then "\t"
       else if Ascii.eqb c "010" then "\n"
       else if Ascii.eqb c "013" then "\r"
       else if printable c then String c EmptyString
       else hex_escape c) +:+ repr_body q s'
  end.

(** [repr] of a [str]: single quotes, unless the text has a single
    quote and no double quote. *)
Definition repr_str (s : string) : string :=
  let q := if has_char quote1 s && negb (has_char quote2 s) then quote2 else quote1 in
  String q (repr_body q s +:+ String q EmptyString).

Definition repr (v : value) : string :=
  match v with
  | PyNone => "None"
  | PyStr s => repr_str s
  | PyInt z => pretty z
  end.

(** [str] of a list, as an f-string renders it. *)
Definition repr_list (l : list value) : string :=
  "[" +:+ join ", " (map repr l) +:+ "]".

(** *** [float] of a [str] *)

Definition binary64 : Type := spec_float.

(** The binary64 value nearest to [±m·10^e] (ties to even): the
    correctly rounded quotient of two integers. *)
Definition binary64_of_decimal (neg : bool) (m e : Z) : binary64 :=
  match m with
  | Zpos p =>
      let num := Z.to_pos (Zpos p * 10 ^ Z.max e 0) in
      let den := Z.to_pos (10 ^ Z.max (- e) 0) in
      SFdiv 53 1024 (S754_finite neg num 0) (S754_finite false den 0)
  | _ => S754_zero neg
  end.

(** [a < b] on floats; false when either side is a NaN. *)
Definition float_lt (a b : binary64) : bool := SFltb a b.

(** The underscore rule of numeric literals: an underscore stands only
    between two digits.  Returns the text without its underscores. *)
Fixpoint drop_underscores (prev : ascii) (s : string) : option string :=
  match s with
  | EmptyString => if Ascii.eqb prev "_" then None else Some EmptyString
  | String c s' =>
      if Ascii.eqb c "_"
      then if isdigit prev then drop_underscores c s' else None
      else if Ascii.eqb prev "_" && negb (isdigit c) then None
           else String c <$> drop_underscores c s'
  end.

(** The leading digits of [s], and what follows them. *)
Fixpoint span_digits (s : string) : string * string :=
  match s with
  | EmptyString => (EmptyString, EmptyString)
  | String c s' =>
      if isdigit c
      then let '(d, r) := span_digits s' in (String c d, r)
      else (EmptyString, s)
  end.

Fixpoint digits_value (acc : Z) (s : string) : Z :=
  match s with
  | EmptyString => acc
  | String c s' => digits_value (10 * acc + digit_value c) s'
  end.

Definition parse_sign (s : string) : bool * string :=
  match s with
  | String "-" r => (true, r)
  | String "+" r => (false, r)
  | _ => (false, s)
  end.

(** The optional exponent part, which must reach the end of the text. *)
Definition parse_exponent (s : string) : option Z :=
  match s with
  | EmptyString => Some 0
  | String c r =>
      if Ascii.eqb c "e" || Ascii.eqb c "E"
      then let '(neg, r') := parse_sign r in
           let '(d, rest) := span_digits r' in
           match d, rest with
           | String _ _, EmptyString =>
               Some (if neg then - digits_value 0 d else digits_value 0 d)
           | _, _ => None
           end
      else None
  end.

Definition parse_number (neg : bool) (s : string) : option binary64 :=
  let '(ip, r1) := span_digits s in
  let '(fp, r2) :=
    match r1 with
    | String "." r => span_digits r
    | _ => (EmptyString, r1)
    end in
  match ip +:+ fp with
  | EmptyString => None
  | String _ _ as ds =>
      e ← parse_exponent r2;
      Some (binary64_of_decimal neg (digits_value 0 ds)
              (e - Z.of_nat (String.length fp)))
  end.

(** The float that a text denotes, if it is a float literal. *)
Definition float_literal (s : string) : option binary64 :=
  let t := rstrip_with float_isspace (lstrip_with float_isspace s) in
  u ← drop_underscores "000" t;
  let '(neg, r) := parse_sign u in
  let w := lower r in
  if String.eqb w "inf" || String.eqb w "infinity" then Some (S754_infinity neg)
  else if String.eqb w "nan" then Some S754_nan
  else parse_number neg r.

(** [float(s)] for a [str]; a text that is no float literal raises
    [ValueError]. *)
Definition float (s : string) : result binary64 :=
  match float_literal s with
  | Some x => Ok x
  | None => Raise (ValueError ("could not convert string to float: " +:+ repr_str s))
  end.

End Py.

(** ** The report generator *)

Module Report.

Abbreviation grid := (list (list value)).

Definition nl : string := String "010" EmptyString.

(** [d[k]] on a dict and [l[i]] on a list, for [i] a non-negative int. *)
Definition getitem {V : Type} (d : gmap string V) (k : string) : result V :=
  match d !! k with
  | Some v => Ok v
  | None => Raise (KeyError k)
  end.

Definition list_getitem {V : Type} (l : list V) (i : nat) : result V :=
  match l !! i with
  | Some v => Ok v
  | None => Raise (IndexError "list index out of range")
  end.

(** [range(lo, hi)] for non-negative [lo]. *)
Definition range (lo hi : nat) : list nat := seq lo (hi - lo).

(** *** [normalize_text] *)

Definition normalize_text (text : value) : string :=
  if negb (Py.truthy text) then EmptyString
  else Py.collapse_spaces (Py.strip (Py.lower (Py.str text))).

(** *** [find_column_index] *)

(** The test of the inner loop, for one cell and one term. *)
Definition term_matches (normalized_cell term : string) : bool :=
  let normalized_term := normalize_text (PyStr term) in
  String.eqb normalized_cell normalized_term
  || Py.contains normalized_term normalized_cell.

(** The inner loop: some term of the list matches the cell. *)
Definition cell_matches (search_terms : list string) (cell : value) : bool :=
  existsb (term_matches (normalize_text cell)) search_terms.

(** The outer loop over [enumerate(header_row)], from index [idx] on. *)
Fixpoint find_column_index_from (idx : nat) (header_row : list value)
    (search_terms : list string) : option nat :=
  match header_row with
  | [] => None
  | cell :: rest =>
      if cell_matches search_terms cell then Some idx
      else find_column_index_from (S idx) rest search_terms
  end.

Definition find_column_index (header_row : list value)
    (search_terms : list string) : option nat :=
  find_column_index_from 0 header_row search_terms.

(** *** [find_header_row] *)

Definition header_not_found : exn :=
  ValueError "Could not find header row. Expected to find 'Sno' and 'UID' columns.".

Definition row_text (row : list value) : string :=
  Py.lower (Py.join " " (map Py.str row)).

Definition is_header_text (text : string) : bool :=
  Py.contains "sno" text
  && (Py.contains "uid" text || Py.contains "item name" text).

Fixpoint find_header_row_loop (data : grid) (indices : list nat)
    : result (nat * list value) :=
  match indices with
  | [] => Raise header_not_found
  | i :: rest =>
      row ← list_getitem data i;
      match row with
      | [] => find_header_row_loop data rest
      | _ :: _ =>
          if is_header_text (row_text row) then Ok (i, row)
          else find_header_row_loop data rest
      end
  end.

Definition find_header_row (data : grid) (max_rows_to_check : Z)
    : result (nat * list value) :=
  find_header_row_loop data
    (range 0 (Z.to_nat (Z.min max_rows_to_check (Z.of_nat (length data))))).

Definition default_max_rows_to_check : Z := 10.

(** *** [find_all_columns] *)

Definition column_definitions : list (string * list (list string)) :=
  [ ("sno", [["sno"; "sno."]]);
    ("uid", [["uid"]]);
    ("bush", [["bush"]]);
    ("group", [["group"]]);
    ("last_io_raised", [["last i. o. raised"; "last i.o raised"; "last io raised"]]);
    ("category", [["category"]]);
    ("stock_location", [["stock location"]]);
    ("min_lvl", [["min lvl"; "min. lvl"; "min lv"; "min. lv"; "minimum level"]]);
    ("opn_bal", [["opn. bal"; "opn bal"; "opening balance"]]) ].

(** The logical columns, in the order of the catalog. *)
Definition catalog_keys : list string :=
  ["sno"; "uid"; "bush"; "group"; "last_io_raised"; "category";
   "stock_location"; "min_lvl"; "opn_bal"].

Definition missing_column (col_name : string) (search_terms : list string)
    (header_row : list value) : exn :=
  ValueError ("Required column '" +:+ col_name +:+ "' not found in header row." +:+ nl
              +:+ "Searched for: " +:+ Py.join ", " search_terms +:+ nl
              +:+ "Header row: " +:+ Py.repr_list header_row).

Fixpoint find_all_columns_loop (header_row : list value)
    (definitions : list (string * list (list string)))
    (columns : gmap string nat) : result (gmap string nat) :=
  match definitions with
  | [] => Ok columns
  | (col_name, search_terms_list) :: rest =>
      let search_terms := concat search_terms_list in
      match find_column_index header_row search_terms with
      | None => Raise (missing_column col_name search_terms header_row)
      | Some idx =>
          find_all_columns_loop header_row rest (<[col_name := idx]> columns)
      end
  end.

Definition find_all_columns (header_row : list value) : result (gmap string nat) :=
  find_all_columns_loop header_row column_definitions ∅.

(** *** [safe_float] *)

Definition is_none (v : value) : bool :=
  match v with PyNone => true | _ => false end.

Definition is_empty_str (v : value) : bool :=
  match v with PyStr EmptyString => true | _ => false end.

(** [None] of the source is [Ok None]; the [try] lets every exception
    other than [ValueError] and [TypeError] through. *)
Definition safe_float (v : value) : result (option Py.binary64) :=
  if is_none v || is_empty_str v then Ok None
  else
    let cleaned := Py.strip (Py.remove_char "," (Py.str v)) in
    match Py.float cleaned with
    | Ok x => Ok (Some x)
    | Raise (ValueError _ | TypeError _) => Ok None
    | Raise e => Raise e
    end.

(** *** [extract_row_data] *)

Definition get_cell (row : list value) (idx : nat) : result value :=
  if (idx <? length row)%nat then list_getitem row idx
  else Ok (PyStr EmptyString).

Definition row_keys : list string :=
  ["sno"; "uid"; "bush"; "group"; "last_io_raised"; "category";
   "stock_location"; "opn_bal"; "min_lvl"].

(** One entry of the dict display: [get_cell(columns[key])]. *)
Definition column_cell (row : list value) (columns : gmap string nat)
    (key : string) : result value :=
  idx ← getitem columns key;
  get_cell row idx.

Definition extract_row_data (row : list value) (columns : gmap string nat)
    : result (gmap string value) :=
  sno ← column_cell row columns "sno";
  uid ← column_cell row columns "uid";
  bush ← column_cell row columns "bush";
  group ← column_cell row columns "group";
  last_io_raised ← column_cell row columns "last_io_raised";
  category ← column_cell row columns "category";
  stock_location ← column_cell row columns "stock_location";
  opn_bal ← column_cell row columns "opn_bal";
  min_lvl ← column_cell row columns "min_lvl";
  Ok (list_to_map
        [ ("sno", sno); ("uid", uid); ("bush", bush); ("group", group);
          ("last_io_raised", last_io_raised); ("category", category);
          ("stock_location", stock_location); ("opn_bal", opn_bal);
          ("min_lvl", min_lvl) ]).

(** *** [filter_replenishment_items] *)

(** The dict display that builds an output item from [row_data]. *)
Definition make_item (row_data : gmap string value) : result (gmap string value) :=
  sno ← getitem row_data "sno";
  uid ← getitem row_data "uid";
  bush ← getitem row_data "bush";
  group ← getitem row_data "group";
  last_io_raised ← getitem row_data "last_io_raised";
  category ← getitem row_data "category";
  stock_location ← getitem row_data "stock_location";
  Ok (list_to_map
        [ ("Sno.", sno); ("UID", uid); ("Bush", bush); ("Group", group);
          ("Last I.O Raised", last_io_raised); ("Category", category);
          ("Stock Location", stock_location) ]).

(** [not row or all(not cell for cell in row)]. *)
Definition is_blank_row (row : list value) : bool :=
  match row with
  | [] => true
  | _ :: _ => forallb (λ cell, negb (Py.truthy cell)) row
  end.

Fixpoint filter_loop (data : grid) (columns : gmap string nat)
    (indices : list nat) (replenishment_items : list (gmap string value))
    : result (list (gmap string value)) :=
  match indices with
  | [] => Ok replenishment_items
  | i :: rest =>
      row ← list_getitem data i;
      if is_blank_row row then filter_loop data columns rest replenishment_items
      else
        row_data ← extract_row_data row columns;
        opn_cell ← getitem row_data "opn_bal";
        min_cell ← getitem row_data "min_lvl";
        opn ← safe_float opn_cell;
        mnl ← safe_float min_cell;
        match opn, mnl with
        | Some opn_bal, Some min_lvl =>
            if Py.float_lt opn_bal min_lvl then
              item ← make_item row_data;
              filter_loop data columns rest (replenishment_items ++ [item])
            else filter_loop data columns rest replenishment_items
        | _, _ => filter_loop data columns rest replenishment_items
        end
  end.

Definition filter_replenishment_items (data : grid) (header_row_idx : nat)
    (columns : gmap string nat) : result (list (gmap string value)) :=
  filter_loop data columns (range (header_row_idx + 1) (length data)) [].

(** *** [save_to_csv] *)

(** What the export can touch: the files by name, the lines printed,
    and for each name the error text with which opening it for writing
    fails, if it does. *)
Record world : Type := World {
  files : gmap string string;
  stdout : list string;
  open_error : string → option string
}.

Definition print (line : string) (w : world) : world :=
  World (files w) (stdout w ++ [line]) (open_error w).

Definition write_file (name content : string) (w : world) : world :=
  World (<[name := content]> (files w)) (stdout w) (open_error w).

Definition OUTPUT_CSV : string := "replenishment_items.csv".

Definition csv_headers : list string :=
  ["Sno."; "UID"; "Bush"; "Group"; "Last I.O Raised"; "Category"; "Stock Location"].

Definition crlf : string := String "013" (String "010" EmptyString).

Fixpoint double_quotes (s : string) : string :=
  match s with
  | EmptyString => EmptyString
  | String c s' =>
      if Ascii.eqb c Py.quote2 then String c (String c (double_quotes s'))
      else String c (double_quotes s')
  end.

(** One field as the [csv] writer of the default dialect renders it:
    quoted when it holds a comma, a double quote or a line break. *)
Definition csv_field (v : value) : string :=
  let s := match v with PyNone => EmptyString | _ => Py.str v end in
  if Py.has_char "," s || Py.has_char Py.quote2 s
     || Py.has_char "013" s || Py.has_char "010" s
  then String Py.quote2 (double_quotes s +:+ String Py.quote2 EmptyString)
  else s.

Definition csv_line (fields : list value) : string :=
  Py.join "," (map csv_field fields) +:+ crlf.

(** [DictWriter._dict_to_list]: keys outside the field names are an
    error; a missing field is written empty.  The unknown keys are
    listed in the order of [elements], Python's set order being
    unspecified. *)
Definition dict_to_list (rowdict : gmap string value) : result (list value) :=
  match elements (dom rowdict ∖ list_to_set csv_headers : gset string) with
  | [] => Ok (map (λ key, default (PyStr EmptyString) (rowdict !! key)) csv_headers)
  | wrong_fields =>
      Raise (ValueError ("dict contains fields not in fieldnames: "
                         +:+ Py.join ", " (map Py.repr_str wrong_fields)))
  end.

(** [writerows]: the text written so far, and the exception that
    stopped the writing, if any. *)
Fixpoint writerows (items : list (gmap string value)) (written : string)
    : string * result unit :=
  match items with
  | [] => (written, Ok tt)
  | item :: rest =>
      match dict_to_list item with
      | Ok fields => writerows rest (written +:+ csv_line fields)
      | Raise e => (written, Raise e)
      end
  end.

Definition exn_text (e : exn) : string :=
  match e with
  | ValueError msg | TypeError msg | IndexError msg | RuntimeError msg => msg
  | KeyError key => Py.repr_str key
  end.

(** The check mark of the success line, outside the modelled code
    points, is kept as its three UTF-8 bytes. *)
Definition check_mark : string :=
  String "226" (String "156" (String "147" EmptyString)).

Definition save_to_csv (items : list (gmap string value)) (filename : string)
    (w : world) : world * result unit :=
  match items with
  | [] => (print (nl +:+ "No items to save to CSV.") w, Ok tt)
  | _ :: _ =>
      match open_error w filename with
      | Some msg => (w, Raise (RuntimeError ("Failed to save CSV file: " +:+ msg)))
      | None =>
          let header := csv_line (map PyStr csv_headers) in
          let '(written, r) := writerows items header in
          let w' := write_file filename written w in
          match r with
          | Ok _ => (print (nl +:+ check_mark +:+ " Results saved to: " +:+ filename) w', Ok tt)
          | Raise e =>
              (w', Raise (RuntimeError ("Failed to save CSV file: " +:+ exn_text e)))
          end
      end
  end.

End Report.

(** ** The reading of the specification *)

Module Spec.
Import Report.

(** A column map holds an index for each of the nine logical columns. *)
Definition is_column_map (columns : gmap string nat) : Prop :=
  ∀ key, key ∈ row_keys → is_Some (columns !! key).

(** [row[index]] when the row reaches the index, else the empty text. *)
Definition cell_or_blank (row : list value) (idx : nat) : value :=
  default (PyStr EmptyString) (row !! idx).

(** The cell of a row under a logical column. *)
Definition field (row : list value) (columns : gmap string nat)
    (key : string) : value :=
  cell_or_blank row (default 0%nat (columns !! key)).

(** The seven descriptive fields of a row. *)
Definition item_of (columns : gmap string nat) (row : list value)
    : gmap string value :=
  list_to_map
    [ ("Sno.", field row columns "sno"); ("UID", field row columns "uid");
      ("Bush", field row columns "bush"); ("Group", field row columns "group");
      ("Last I.O Raised", field row columns "last_io_raised");
      ("Category", field row columns "category");
      ("Stock Location", field row columns "stock_location") ].

(** The row needs replenishment: it is not blank, both numeric cells
    coerce, and the balance is below the minimum. *)
Definition qualifies (columns : gmap string nat) (row : list value) : bool :=
  negb (is_blank_row row)
  && match safe_float (field row columns "opn_bal"),
           safe_float (field row columns "min_lvl") with
     | Ok (Some opn_bal), Ok (Some min_lvl) => Py.float_lt opn_bal min_lvl
     | _, _ => false
     end.

Definition row_at (data : grid) (i : nat) : list value :=
  default [] (data !! i).

(** The indices of the data rows that qualify, in ascending order. *)
Definition selected (data : grid) (header_row_idx : nat)
    (columns : gmap string nat) : list nat :=
  filter (λ i, qualifies columns (row_at data i) = true)
         (range (header_row_idx + 1) (length data)).

(** A row that the header locator accepts. *)
Definition is_header_row (row : list value) : bool :=
  match row with
  | [] => false
  | _ :: _ => is_header_text (row_text row)
  end.

(** [sub] occurs in [s]. *)
Definition occurs_in (sub s : string) : Prop :=
  ∃ before after, s = before +:+ sub +:+ after.

(** The nine fields of a row. *)
Definition row_data_of (columns : gmap string nat) (row : list value)
    : gmap string value :=
  list_to_map
    [ ("sno", field row columns "sno"); ("uid", field row columns "uid");
      ("bush", field row columns "bush"); ("group", field row columns "group");
      ("last_io_raised", field row columns "last_io_raised");
      ("category", field row columns "category");
      ("stock_location", field row columns "stock_location");
      ("opn_bal", field row columns "opn_bal");
      ("min_lvl", field row columns "min_lvl") ].

(** The search terms of a catalog entry, flattened. *)
Definition terms_of (d : string * list (list string)) : list string :=
  concat d.2.

(** Some header cell matches a term of the catalog entry. *)
Definition resolves (header_row : list value)
    (d : string * list (list string)) : Prop :=
  is_Some (find_column_index header_row (terms_of d)).

(** The finite float [x] is the integer [z]. *)
Definition float_is_int (x : Py.binary64) (z : Z) : Prop :=
  match x with
  | S754_zero _ => z = 0
  | S754_finite s m e =>
      e ≤ 0 ∧ (if s then Z.neg m else Z.pos m) = z * 2 ^ (- e)
  | _ => False
  end.

End Spec.

(** ** A sample sheet *)

Module Example.
Import Report.

Definition header : list value :=
  map PyStr ["Sno"; "UID"; "Bush"; "Group"; "Last I.O Raised"; "Category";
             "Stock Location"; "Min Lvl"; "Opn Bal"].

Definition low_row : list value :=
  [PyInt 1; PyStr "A1"; PyStr "B"; PyStr "G1"; PyStr "2024-01-01"; PyStr "C1";
   PyStr "L1"; PyStr "10"; PyStr "5"].

Definition full_row : list value :=
  [PyInt 2; PyStr "A2"; PyStr "B"; PyStr "G1"; PyStr "2024-01-01"; PyStr "C1";
   PyStr "L1"; PyStr "5"; PyStr "20"].

Definition level_row : list value :=
  [PyInt 3; PyStr "A3"; PyStr "B"; PyStr "G2"; PyStr "2024-02-01"; PyStr "C2";
   PyStr "L2"; PyStr "10"; PyStr "10.0"].

Definition short_row : list value := [PyInt 4; PyStr "A4"].

Definition noted_row : list value :=
  [PyInt 5; PyStr "A5"; PyStr "B"; PyStr "G2"; PyStr "2024-02-01"; PyStr "C2";
   PyStr "L2"; PyStr "1,234"; PyStr "see note"].

Definition last_row : list value :=
  [PyInt 6; PyStr "A6"; PyStr "B"; PyStr "G3"; PyStr "2024-03-01"; PyStr "C3";
   PyStr "L3"; PyStr "1,234"; PyStr " 1,233.5 "].

(** Two leading rows, the header at index 2, then the data rows. *)
Definition sheet : grid :=
  [ [PyStr "STOCK SHEET"]; []; header; low_row; full_row; level_row;
    [PyStr EmptyString; PyNone]; short_row; noted_row; last_row ].

Definition columns : gmap string nat :=
  list_to_map
    [ ("sno", 0%nat); ("uid", 1%nat); ("bush", 2%nat); ("group", 3%nat);
      ("last_io_raised", 4%nat); ("category", 5%nat);
      ("stock_location", 6%nat); ("min_lvl", 7%nat); ("opn_bal", 8%nat) ].

(** A header whose third cell names two logical columns. *)
Definition merged_header : list value :=
  map PyStr ["Sno"; "UID"; "Bush / Group"; "Last I.O Raised"; "Category";
             "Stock Location"; "Min Lvl"; "Opn Bal"].

(** A header with the long title of the balance before its short one. *)
Definition balance_header : list value :=
  map PyStr ["Opening Balance"; "Opn Bal"].

Definition balance_terms : list string :=
  ["opn. bal"; "opn bal"; "opening balance"].

(** A header without the bush and group columns. *)
Definition partial_header : list value :=
  map PyStr ["Sno"; "UID"; "Last I.O Raised"; "Category"; "Stock Location";
             "Min Lvl"; "Opn Bal"].

Definition empty_world : world := World ∅ [] (λ _, None).

End Example.

(** ** Notions for further properties *)

Module Props.
Import Report.

(** Every character of the text is white space. *)
Fixpoint all_space (s : string) : bool :=
  match s with
  | EmptyString => true
  | String c s' => Py.isspace c && all_space s'
  end.

(** The text does not begin with white space. *)
Definition starts_clean (s : string) : bool :=
  match s with
  | EmptyString => true
  | String c _ => negb (Py.isspace c)
  end.

(** The text does not end with white space. *)
Fixpoint ends_clean (s : string) : bool :=
  match s with
  | EmptyString => true
  | String c s' =>
      match s' with
      | EmptyString => negb (Py.isspace c)
      | String _ _ => ends_clean s'
      end
  end.

(** The only white space in the text is the blank, never twice in a
    row; [prev_space] tells that a blank came just before. *)
Fixpoint single_spaced (prev_space : bool) (s : string) : bool :=
  match s with
  | EmptyString => true
  | String c s' =>
      if Py.isspace c
      then Ascii.eqb c " " && negb prev_space && single_spaced true s'
      else single_spaced false s'
  end.

(** A text in the form [normalize_text] produces. *)
Definition normal (s : string) : bool :=
  starts_clean s && ends_clean s && single_spaced false s
  && String.eqb (Py.lower s) s.

(** The first key of the row record that the column map lacks. *)
Definition first_missing (columns : gmap string nat) : option string :=
  head (filter (λ key, columns !! key = None) row_keys).

(** The line of the export for a row. *)
Definition item_line (columns : gmap string nat) (row : list value) : string :=
  csv_line
    [ Spec.field row columns "sno"; Spec.field row columns "uid";
      Spec.field row columns "bush"; Spec.field row columns "group";
      Spec.field row columns "last_io_raised";
      Spec.field row columns "category";
      Spec.field row columns "stock_location" ].

(** The keys of the item are field names of the export. *)
Definition known_fields (item : gmap string value) : Prop :=
  dom item ⊆ list_to_set csv_headers.

(** The lines of the export for a list of items with known fields. *)
Definition item_lines (items : list (gmap string value)) : string :=
  foldr (λ item rest,
           csv_line (map (λ key, default (PyStr EmptyString) (item !! key))
                         csv_headers) +:+ rest)
        EmptyString items.

(** No character of the text is white space. *)
Fixpoint no_space (s : string) : bool :=
  match s with
  | EmptyString => true
  | String c s' => negb (Py.isspace c) && no_space s'
  end.

(** Every character of the text is a decimal digit. *)
Fixpoint all_digits (s : string) : bool :=
  match s with
  | EmptyString => true
  | String c s' => Py.isdigit c && all_digits s'
  end.

(** No character of the text satisfies [p]. *)
Fixpoint free_of (p : ascii → bool) (s : string) : bool :=
  match s with
  | EmptyString => true
  | String c s' => negb (p c) && free_of p s'
  end.

(** The logical columns with their titles in the standard sheet. *)
Definition titled_catalog : list (string * string) :=
  [ ("sno", "Sno"); ("uid", "UID"); ("bush", "Bush"); ("group", "Group");
    ("last_io_raised", "Last I.O Raised"); ("category", "Category");
    ("stock_location", "Stock Location"); ("min_lvl", "Min Lvl");
    ("opn_bal", "Opn Bal") ].

End Props.

(** ** Sample runs *)

Section Runs.
Import Report.

Example normalize_text_title :
  normalize_text (PyStr "  Min.   LVL ") = "min. lvl"
  ∧ normalize_text PyNone = EmptyString
  ∧ normalize_text (PyInt 0) = EmptyString
  ∧ normalize_text (PyInt 42) = "42".
Proof. repeat split; reflexivity. Qed.

Example float_literals :
  Py.float_literal "0.1" = Some (S754_finite false 7205759403792794 (-56))
  ∧ Py.float_literal " -2.5e3 " = Some (S754_finite true (2500 * 2 ^ 41) (-41))
  ∧ Py.float_literal "1_000" = Some (S754_finite false (1000 * 2 ^ 43) (-43))
  ∧ Py.float_literal "9007199254740993" = Some (S754_finite false (2 ^ 52) 1)
  ∧ Py.float_literal "1e400" = Some (S754_infinity false)
  ∧ Py.float_literal "-Infinity" = Some (S754_infinity true)
  ∧ Py.float_literal "NaN" = Some S754_nan
  ∧ Py.float_literal "-0" = Some (S754_zero true)
  ∧ Py.float_literal "1e" = None
  ∧ Py.float_literal "1__0" = None
  ∧ Py.float_literal "12 3" = None
  ∧ Py.float_literal EmptyString = None.
Proof. repeat split; vm_compute; reflexivity. Qed.

Example float_error_text :
  Py.float "abc" = Raise (ValueError "could not convert string to float: 'abc'").
Proof. reflexivity. Qed.

(** The boundary of the filter: 9 is below 10, 10 is not below 10. *)
Example balance_boundary :
  (∃ a b, safe_float (PyStr "9") = Ok (Some a)
          ∧ safe_float (PyStr "10") = Ok (Some b)
          ∧ Py.float_lt a b = true)
  ∧ (∃ a b, safe_float (PyStr "10") = Ok (Some a)
            ∧ safe_float (PyStr "10.0") = Ok (Some b)
            ∧ Py.float_lt a b = false).
Proof. split; eexists _, _; repeat split; vm_compute; reflexivity. Qed.

(** The sample sheet, from the header search to the items. *)
Example sample_report :
  find_header_row Example.sheet default_max_rows_to_check = Ok (2%nat, Example.header)
  ∧ find_all_columns Example.header = Ok Example.columns
  ∧ filter_replenishment_items Example.sheet 2 Example.columns =
      Ok [ list_to_map
             [ ("Sno.", PyInt 1); ("UID", PyStr "A1"); ("Bush", PyStr "B");
               ("Group", PyStr "G1"); ("Last I.O Raised", PyStr "2024-01-01");
               ("Category", PyStr "C1"); ("Stock Location", PyStr "L1") ];
           list_to_map
             [ ("Sno.", PyInt 6); ("UID", PyStr "A6"); ("Bush", PyStr "B");
               ("Group", PyStr "G3"); ("Last I.O Raised", PyStr "2024-03-01");
               ("Category", PyStr "C3"); ("Stock Location", PyStr "L3") ] ].
Proof. repeat split; vm_compute; reflexivity. Qed.

(** The message of a missing column, on a header with a quoted cell. *)
Example missing_column_text :
  find_all_columns [PyStr "Sno"; PyStr "it's"; PyInt 3; PyNone] =
    Raise (ValueError
      ("Required column 'uid' not found in header row." +:+ nl
       +:+ "Searched for: uid" +:+ nl
       +:+ "Header row: ['Sno', " +:+ String Py.quote2 "it's"
       +:+ String Py.quote2 ", 3, None]")).
Proof. vm_compute. reflexivity. Qed.

(** The export of one item: a header line and one line, the commas of
    a field quoted. *)
Example export_one_item :
  let item : gmap string value :=
    list_to_map
      [ ("Sno.", PyInt 1); ("UID", PyStr "A1, new"); ("Bush", PyStr "B");
        ("Group", PyStr "G1"); ("Last I.O Raised", PyNone);
        ("Category", PyStr "C1"); ("Stock Location", PyStr "L1") ] in
  files (save_to_csv [item] OUTPUT_CSV Example.empty_world).1 !! OUTPUT_CSV =
    Some ("Sno.,UID,Bush,Group,Last I.O Raised,Category,Stock Location" +:+ crlf
          +:+ "1," +:+ String Py.quote2 "A1, new" +:+ String Py.quote2 ",B,G1,,C1,L1"
          +:+ crlf).
Proof. vm_compute. reflexivity. Qed.

End Runs.

(** ** Properties of the built-ins *)

Section PyFacts.
Local Open Scope nat_scope.

Lemma append_nil (s : string) : EmptyString +:+ s = s.
Proof. reflexivity. Qed.

Lemma append_cons (c : ascii) (a s : string) :
  String c a +:+ s = String c (a +:+ s).
Proof. reflexivity. Qed.

Lemma append_assoc (a b c : string) : (a +:+ b) +:+ c = a +:+ b +:+ c.
Proof.
  induction a as [|x a IH]; [reflexivity|].
  rewrite !append_cons, IH. reflexivity.
Qed.

Lemma append_nil_r (s : string) : s +:+ EmptyString = s.
Proof.
  induction s as [|c s IH]; [reflexivity|]. rewrite append_cons, IH. reflexivity.
Qed.

Lemma occurs_in_refl (x : string) : Spec.occurs_in x x.
Proof. exists EmptyString, EmptyString. rewrite append_nil, append_nil_r. reflexivity. Qed.

Lemma occurs_in_head (x s : string) : Spec.occurs_in x (x +:+ s).
Proof. exists EmptyString, s. reflexivity. Qed.

Lemma occurs_in_append (x a s : string) :
  Spec.occurs_in x s → Spec.occurs_in x (a +:+ s).
Proof.
  intros (before & after & ->). exists (a +:+ before), after.
  rewrite append_assoc. reflexivity.
Qed.

Lemma prefix_app (a s : string) :
  String.prefix a s = true ↔ ∃ r, s = a +:+ r.
Proof.
  revert s. induction a as [|c a IH]; intros s; simpl.
  - destruct s; split; eauto.
  - setoid_rewrite append_cons. destruct s as [|d s]; simpl.
    + split; [discriminate | intros [r Hr]; discriminate].
    + destruct (ascii_dec c d) as [->|Hne].
      * rewrite IH. split; intros [r Hr]; exists r; congruence.
      * split; [discriminate | intros [r Hr]; congruence].
Qed.

(** [contains] decides the occurrence of a text inside another. *)
Lemma contains_occurs (sub s : string) :
  Py.contains sub s = true ↔ Spec.occurs_in sub s.
Proof.
  unfold Spec.occurs_in. induction s as [|c s IH].
  - cbn [Py.contains]. rewrite orb_false_r, prefix_app. split.
    + intros [r Hr]. exists EmptyString, r. exact Hr.
    + intros ([|b before] & after & H); rewrite ?append_cons, ?append_nil in H;
        [eauto | discriminate].
  - cbn [Py.contains]. rewrite orb_true_iff, prefix_app, IH. split.
    + intros [[r Hr] | (before & after & H)].
      * exists EmptyString, r. exact Hr.
      * exists (String c before), after. rewrite append_cons. congruence.
    + intros ([|b before] & after & H); rewrite ?append_cons, ?append_nil in H.
      * left. eauto.
      * right. exists before, after. congruence.
Qed.

Lemma float_lt_irrefl (x : Py.binary64) : Py.float_lt x x = false.
Proof.
  unfold Py.float_lt, SFltb.
  destruct x as [[]|[]| |[] m e]; simpl; try reflexivity;
    rewrite Z.compare_refl;
    assert (H : Pos.compare_cont Eq m m = Eq) by apply Pos.compare_refl;
    rewrite H; reflexivity.
Qed.

(** Floats that compare equal are not below one another. *)
Lemma float_lt_eqb (x y : Py.binary64) :
  SFeqb x y = true → Py.float_lt x y = false.
Proof.
  unfold Py.float_lt, SFltb, SFeqb.
  destruct (SFcompare x y) as [[]|]; congruence.
Qed.

End PyFacts.

(** ** The column resolver, one column *)

Section ColumnIndex.
Local Open Scope nat_scope.
Import Report.

Variable search_terms : list string.

Lemma cell_matches_term (cell : value) :
  cell_matches search_terms cell = true ↔
  ∃ term, term ∈ search_terms ∧
    (normalize_text cell = normalize_text (PyStr term)
     ∨ Spec.occurs_in (normalize_text (PyStr term)) (normalize_text cell)).
Proof.
  unfold cell_matches. rewrite existsb_exists. unfold term_matches.
  split; intros (term & Hin & H); exists term.
  - apply list_elem_of_In in Hin. split; [exact Hin|].
    apply orb_true_iff in H as [H|H].
    + left. apply String.eqb_eq in H. exact H.
    + right. apply contains_occurs. exact H.
  - split; [apply list_elem_of_In; exact Hin|].
    apply orb_true_iff. destruct H as [H|H].
    + left. apply String.eqb_eq. exact H.
    + right. apply contains_occurs. exact H.
Qed.

Lemma find_from_Some (header_row : list value) (n i : nat) :
  find_column_index_from n header_row search_terms = Some i ↔
  n ≤ i
  ∧ (∃ cell, header_row !! (i - n) = Some cell
             ∧ cell_matches search_terms cell = true)
  ∧ (∀ j cell, j < i - n → header_row !! j = Some cell →
               cell_matches search_terms cell = false).
Proof.
  revert n. induction header_row as [|c rest IH]; intros n; simpl.
  - split; [discriminate | intros (_ & (cell & H & _) & _); discriminate].
  - destruct (cell_matches search_terms c) eqn:Hc.
    + split.
      * intros [= <-]. replace (n - n) with 0 by lia.
        split; [lia|]. split; [eauto | intros j cell Hj; lia].
      * intros (Hle & _ & Hlow).
        destruct (decide (i = n)) as [->|Hne]; [reflexivity|].
        specialize (Hlow 0 c ltac:(lia) eq_refl). congruence.
    + rewrite IH. split.
      * intros (Hle & (cell & Hcell & Hm) & Hlow).
        split; [lia|]. split.
        -- exists cell. split; [|exact Hm].
           replace (i - n) with (S (i - S n)) by lia. exact Hcell.
        -- intros [|j] cell' Hj Hlook; simpl in Hlook.
           ++ congruence.
           ++ apply (Hlow j cell'); [lia | exact Hlook].
      * intros (Hle & (cell & Hcell & Hm) & Hlow).
        destruct (decide (i = n)) as [->|Hne].
        { replace (n - n) with 0 in Hcell by lia. simpl in Hcell. congruence. }
        split; [lia|]. split.
        -- exists cell. split; [|exact Hm].
           replace (i - n) with (S (i - S n)) in Hcell by lia. exact Hcell.
        -- intros j cell' Hj Hlook. apply (Hlow (S j) cell'); [lia | exact Hlook].
Qed.

Lemma find_from_None (header_row : list value) (n : nat) :
  find_column_index_from n header_row search_terms = None ↔
  ∀ cell, cell ∈ header_row → cell_matches search_terms cell = false.
Proof.
  revert n. induction header_row as [|c rest IH]; intros n; simpl.
  - split; [intros _ cell H; inversion H | reflexivity].
  - destruct (cell_matches search_terms c) eqn:Hc.
    + split; [discriminate|]. intros H.
      specialize (H c ltac:(left)). congruence.
    + rewrite IH. split.
      * intros H cell Hin. apply elem_of_cons in Hin as [->|Hin]; auto.
      * intros H cell Hin. apply H. right. exact Hin.
Qed.

End ColumnIndex.

(** ** The header locator *)

Section HeaderRow.
Local Open Scope nat_scope.
Import Report.

Variable data : grid.

Lemma is_header_row_occurs (row : list value) :
  Spec.is_header_row row = true ↔
  row ≠ []
  ∧ Spec.occurs_in "sno" (row_text row)
  ∧ (Spec.occurs_in "uid" (row_text row)
     ∨ Spec.occurs_in "item name" (row_text row)).
Proof.
  unfold Spec.is_header_row, is_header_text. destruct row as [|c row].
  - split; [discriminate | intros [H _]; congruence].
  - rewrite andb_true_iff, orb_true_iff, !contains_occurs.
    split; [intros H; split; [discriminate | exact H] | intros [_ H]; exact H].
Qed.

(** One turn of the loop, on a row that exists. *)
Lemma find_header_row_loop_cons (i : nat) (rest : list nat) (row : list value) :
  data !! i = Some row →
  find_header_row_loop data (i :: rest) =
    if Spec.is_header_row row then Ok (i, row)
    else find_header_row_loop data rest.
Proof.
  intros H. cbn [find_header_row_loop]. unfold list_getitem. rewrite H.
  destruct row; reflexivity.
Qed.

(** The scan of the rows [a], ..., [a + n - 1], all of them in the grid. *)
Lemma find_header_row_loop_seq (n a : nat) :
  a + n ≤ length data →
  (∃ i row, find_header_row_loop data (seq a n) = Ok (i, row)
            ∧ a ≤ i < a + n ∧ data !! i = Some row
            ∧ Spec.is_header_row row = true
            ∧ ∀ j row', a ≤ j < i → data !! j = Some row' →
                        Spec.is_header_row row' = false)
  ∨ (find_header_row_loop data (seq a n) = Raise header_not_found
     ∧ ∀ j row', a ≤ j < a + n → data !! j = Some row' →
                 Spec.is_header_row row' = false).
Proof.
  revert a. induction n as [|n IH]; intros a Hlen.
  - right. split; [reflexivity | intros j row' Hj; lia].
  - destruct (lookup_lt_is_Some_2 data a ltac:(lia)) as [row Hrow].
    cbn [seq]. rewrite (find_header_row_loop_cons _ _ _ Hrow).
    destruct (Spec.is_header_row row) eqn:Hhdr.
    + left. exists a, row. repeat split; auto; lia.
    + destruct (IH (S a) ltac:(lia)) as [(i & r & Hres & Hi & Hlook & Hi_hdr & Hlow) | [Hres Hnone]].
      * left. exists i, r. repeat split; auto; try lia.
        intros j row' Hj Hj'. destruct (decide (j = a)) as [->|Hne].
        -- congruence.
        -- apply (Hlow j); [lia | exact Hj'].
      * right. split; [exact Hres|].
        intros j row' Hj Hj'. destruct (decide (j = a)) as [->|Hne].
        -- congruence.
        -- apply (Hnone j); [lia | exact Hj'].
Qed.

End HeaderRow.

(** ** The column resolver, all columns *)

Section AllColumns.
Local Open Scope nat_scope.
Import Report.

Variable header_row : list value.

Lemma resolves_dec (d : string * list (list string)) :
  Spec.resolves header_row d
  ∨ find_column_index header_row (Spec.terms_of d) = None.
Proof.
  unfold Spec.resolves.
  destruct (find_column_index header_row (Spec.terms_of d)); eauto.
Qed.

(** Either every entry resolves, or there is a first one that does not. *)
Lemma first_unresolved (defs : list (string * list (list string))) :
  Forall (Spec.resolves header_row) defs
  ∨ ∃ pre d post, defs = pre ++ d :: post
      ∧ Forall (Spec.resolves header_row) pre
      ∧ find_column_index header_row (Spec.terms_of d) = None.
Proof.
  induction defs as [|d defs IH].
  - left. constructor.
  - destruct (resolves_dec d) as [Hd|Hd].
    + destruct IH as [IH | (pre & d' & post & -> & Hpre & Hnone)].
      * left. constructor; assumption.
      * right. exists (d :: pre), d', post. repeat split; auto.
    + right. exists [], d, defs. repeat split; auto.
Qed.

(** The loop stops at the first entry without a match, and names it. *)
Lemma find_all_columns_loop_raise
    (pre post : list (string * list (list string)))
    (d : string * list (list string)) (columns : gmap string nat) :
  Forall (Spec.resolves header_row) pre →
  find_column_index header_row (Spec.terms_of d) = None →
  find_all_columns_loop header_row (pre ++ d :: post) columns =
    Raise (missing_column d.1 (Spec.terms_of d) header_row).
Proof.
  intros Hpre Hnone. revert columns.
  induction Hpre as [|[c tl] pre [idx Hidx] _ IH]; intros columns.
  - destruct d as [c tl]. simpl. unfold Spec.terms_of in Hnone. simpl in Hnone.
    rewrite Hnone. reflexivity.
  - simpl. unfold Spec.terms_of in Hidx. simpl in Hidx. rewrite Hidx. apply IH.
Qed.

(** A loop that ends well has resolved every entry it was given. *)
Lemma find_all_columns_loop_ok (defs : list (string * list (list string)))
    (columns columns' : gmap string nat) :
  NoDup defs.*1 →
  find_all_columns_loop header_row defs columns = Ok columns' →
  (∀ d, d ∈ defs →
        is_Some (columns' !! d.1)
        ∧ columns' !! d.1 = find_column_index header_row (Spec.terms_of d))
  ∧ (∀ key, key ∉ defs.*1 → columns' !! key = columns !! key).
Proof.
  revert columns. induction defs as [|[c tl] defs IH]; intros columns Hnd Hok.
  - injection Hok as <-. split; [intros d Hd; inversion Hd | reflexivity].
  - simpl in Hok. rewrite fmap_cons in Hnd. apply NoDup_cons in Hnd as [Hc Hnd].
    destruct (find_column_index header_row (concat tl)) as [idx|] eqn:Hidx;
      [|discriminate].
    destruct (IH _ Hnd Hok) as [Hin Hout]. split.
    + intros d Hd. apply elem_of_cons in Hd as [->|Hd]; [|auto].
      simpl. unfold Spec.terms_of. simpl. rewrite Hidx.
      rewrite (Hout c Hc), lookup_insert_eq. eauto.
    + intros key Hkey. rewrite fmap_cons in Hkey.
      apply not_elem_of_cons in Hkey as [Hne Hkey].
      rewrite (Hout key Hkey). apply lookup_insert_ne. simpl in Hne. congruence.
Qed.

Lemma find_all_columns_loop_total (defs : list (string * list (list string)))
    (columns : gmap string nat) :
  Forall (Spec.resolves header_row) defs →
  ∃ columns', find_all_columns_loop header_row defs columns = Ok columns'.
Proof.
  intros H. revert columns.
  induction H as [|[c tl] defs [idx Hidx] _ IH]; intros columns.
  - eexists. reflexivity.
  - simpl. unfold Spec.terms_of in Hidx. simpl in Hidx. rewrite Hidx. apply IH.
Qed.

Lemma column_definitions_keys : column_definitions.*1 = catalog_keys.
Proof. reflexivity. Qed.

Lemma catalog_keys_nodup : NoDup column_definitions.*1.
Proof. apply (bool_decide_unpack _). vm_compute. exact I. Qed.

End AllColumns.

(** ** The numeric coercer *)

Section Coercer.
Import Report.

Lemma bind_ok {A B : Type} (a : A) (k : A → result B) : Ok a ≫= k = k a.
Proof. reflexivity. Qed.

Lemma bind_raise {A B : Type} (e : exn) (k : A → result B) :
  Raise e ≫= k = Raise e.
Proof. reflexivity. Qed.

(** [float] raises nothing but [ValueError]. *)
Lemma float_raises (s : string) (e : exn) :
  Py.float s = Raise e →
  e = ValueError ("could not convert string to float: " +:+ Py.repr_str s).
Proof.
  unfold Py.float. destruct (Py.float_literal s); [discriminate|].
  intros [= <-]. reflexivity.
Qed.

(** What [safe_float] returns, by cases on the literal read. *)
Lemma safe_float_unfold (v : value) :
  safe_float v =
    Ok (if is_none v || is_empty_str v then None
        else Py.float_literal (Py.strip (Py.remove_char "," (Py.str v)))).
Proof.
  unfold safe_float, Py.float.
  destruct (is_none v || is_empty_str v); [reflexivity|].
  destruct (Py.float_literal _); reflexivity.
Qed.

Lemma safe_float_total (v : value) : ∃ o, safe_float v = Ok o.
Proof. rewrite safe_float_unfold. eauto. Qed.

End Coercer.

(** ** The row extractor *)

Section Extractor.
Local Open Scope nat_scope.
Import Report.

Variable columns : gmap string nat.

Lemma get_cell_blank (row : list value) (idx : nat) :
  get_cell row idx = Ok (Spec.cell_or_blank row idx).
Proof.
  unfold get_cell, list_getitem, Spec.cell_or_blank.
  destruct (idx <? length row) eqn:Hlt.
  - apply Nat.ltb_lt in Hlt.
    destruct (lookup_lt_is_Some_2 row idx Hlt) as [v Hv]. rewrite Hv. reflexivity.
  - apply Nat.ltb_ge in Hlt. rewrite (lookup_ge_None_2 row idx Hlt). reflexivity.
Qed.

Lemma column_cell_field (row : list value) (key : string) :
  is_Some (columns !! key) →
  column_cell row columns key = Ok (Spec.field row columns key).
Proof.
  intros [idx Hidx]. unfold column_cell, getitem, Spec.field.
  rewrite Hidx, bind_ok. apply get_cell_blank.
Qed.

Lemma column_cell_missing (row : list value) (key : string) :
  columns !! key = None →
  column_cell row columns key = Raise (KeyError key).
Proof. intros H. unfold column_cell, getitem. rewrite H. reflexivity. Qed.

Lemma row_key_in (key : string) :
  key ∈ row_keys ↔
  key = "sno" ∨ key = "uid" ∨ key = "bush" ∨ key = "group"
  ∨ key = "last_io_raised" ∨ key = "category" ∨ key = "stock_location"
  ∨ key = "opn_bal" ∨ key = "min_lvl".
Proof.
  unfold row_keys. rewrite !elem_of_cons, elem_of_nil. tauto.
Qed.

Lemma extract_row_data_ok (row : list value) :
  Spec.is_column_map columns →
  extract_row_data row columns = Ok (Spec.row_data_of columns row).
Proof.
  intros H. unfold extract_row_data.
  rewrite !column_cell_field, !bind_ok by (apply H, row_key_in; tauto).
  reflexivity.
Qed.

(** The dict display of an item reads seven of the nine fields. *)
Lemma make_item_fields (sno uid bush group last_io category location opn mnl : value) :
  make_item
    (list_to_map
       [ ("sno", sno); ("uid", uid); ("bush", bush); ("group", group);
         ("last_io_raised", last_io); ("category", category);
         ("stock_location", location); ("opn_bal", opn); ("min_lvl", mnl) ]) =
  Ok (list_to_map
        [ ("Sno.", sno); ("UID", uid); ("Bush", bush); ("Group", group);
          ("Last I.O Raised", last_io); ("Category", category);
          ("Stock Location", location) ]).
Proof. reflexivity. Qed.

Lemma numeric_fields (sno uid bush group last_io category location opn mnl : value) :
  let row_data : gmap string value :=
    list_to_map
       [ ("sno", sno); ("uid", uid); ("bush", bush); ("group", group);
         ("last_io_raised", last_io); ("category", category);
         ("stock_location", location); ("opn_bal", opn); ("min_lvl", mnl) ] in
  getitem row_data "opn_bal" = Ok opn ∧ getitem row_data "min_lvl" = Ok mnl.
Proof. split; reflexivity. Qed.

End Extractor.

(** ** The replenishment filter *)

Section Filter.
Local Open Scope nat_scope.
Import Report.

Variable data : grid.
Variable columns : gmap string nat.
Hypothesis columns_ok : Spec.is_column_map columns.

Lemma is_blank_row_cells (row : list value) :
  is_blank_row row = false ↔
  row ≠ [] ∧ ∃ cell, cell ∈ row ∧ Py.truthy cell = true.
Proof.
  destruct row as [|c row].
  - split; [discriminate | intros [H _]; congruence].
  - unfold is_blank_row. split.
    + intros H. split; [discriminate|].
      destruct (existsb (λ cell, Py.truthy cell) (c :: row)) eqn:He.
      * apply existsb_exists in He as (cell & Hin & Ht).
        exists cell. split; [apply list_elem_of_In; exact Hin | exact Ht].
      * assert (Hall : forallb (λ cell, negb (Py.truthy cell)) (c :: row) = true);
          [|congruence].
        apply forallb_forall. intros cell Hin.
        destruct (Py.truthy cell) eqn:Ht; [|reflexivity].
        assert (existsb (λ cell, Py.truthy cell) (c :: row) = true); [|congruence].
        apply existsb_exists. eauto.
    + intros (_ & cell & Hin & Ht).
      destruct (forallb (λ cell, negb (Py.truthy cell)) (c :: row)) eqn:Hall;
        [|reflexivity].
      rewrite forallb_forall in Hall.
      specialize (Hall cell (proj1 (list_elem_of_In _ _) Hin)).
      rewrite Ht in Hall. discriminate.
Qed.

(** One turn of the loop, on a row that exists. *)
Lemma filter_loop_cons (i : nat) (rest : list nat)
    (items : list (gmap string value)) :
  i < length data →
  filter_loop data columns (i :: rest) items =
    filter_loop data columns rest
      (if Spec.qualifies columns (Spec.row_at data i)
       then items ++ [Spec.item_of columns (Spec.row_at data i)]
       else items).
Proof.
  intros Hi. destruct (lookup_lt_is_Some_2 data i Hi) as [row Hrow].
  assert (Hat : Spec.row_at data i = row) by (unfold Spec.row_at; rewrite Hrow; reflexivity).
  cbn [filter_loop]. rewrite Hat. unfold list_getitem, Spec.qualifies.
  rewrite Hrow, bind_ok.
  destruct (is_blank_row row); [reflexivity|]. cbn [negb andb].
  rewrite (extract_row_data_ok columns row columns_ok), bind_ok.
  unfold Spec.row_data_of.
  destruct (numeric_fields (Spec.field row columns "sno")
    (Spec.field row columns "uid") (Spec.field row columns "bush")
    (Spec.field row columns "group") (Spec.field row columns "last_io_raised")
    (Spec.field row columns "category") (Spec.field row columns "stock_location")
    (Spec.field row columns "opn_bal") (Spec.field row columns "min_lvl"))
    as [Hopn Hmin].
  cbv zeta in Hopn, Hmin. rewrite Hopn, bind_ok, Hmin, bind_ok.
  destruct (safe_float_total (Spec.field row columns "opn_bal")) as [opn ->].
  destruct (safe_float_total (Spec.field row columns "min_lvl")) as [mnl ->].
  rewrite !bind_ok.
  destruct opn as [opn_bal|], mnl as [min_lvl|]; try reflexivity.
  destruct (Py.float_lt opn_bal min_lvl); [|reflexivity].
  rewrite make_item_fields, bind_ok. reflexivity.
Qed.

(** The loop appends, in the order of the indices, the items of the rows
    that qualify. *)
Lemma filter_loop_selected (indices : list nat)
    (items : list (gmap string value)) :
  (∀ i, i ∈ indices → i < length data) →
  filter_loop data columns indices items =
    Ok (items ++
        map (λ i, Spec.item_of columns (Spec.row_at data i))
            (filter (λ i, Spec.qualifies columns (Spec.row_at data i) = true)
                    indices)).
Proof.
  revert items. induction indices as [|i rest IH]; intros items Hin.
  - simpl. rewrite app_nil_r. reflexivity.
  - rewrite filter_loop_cons by (apply Hin; left).
    rewrite IH by (intros j Hj; apply Hin; right; exact Hj).
    destruct (Spec.qualifies columns (Spec.row_at data i)) eqn:Hq.
    + rewrite filter_cons_True by exact Hq. simpl. rewrite <- app_assoc. reflexivity.
    + rewrite filter_cons_False by congruence. reflexivity.
Qed.

Lemma range_bounds (lo hi i : nat) : i ∈ range lo hi ↔ lo ≤ i < hi.
Proof. unfold range. rewrite elem_of_seq. lia. Qed.

Lemma filter_selected (header_row_idx : nat) :
  filter_replenishment_items data header_row_idx columns =
    Ok (map (λ i, Spec.item_of columns (Spec.row_at data i))
            (Spec.selected data header_row_idx columns)).
Proof.
  unfold filter_replenishment_items, Spec.selected.
  rewrite filter_loop_selected; [reflexivity|].
  intros i Hi. apply range_bounds in Hi. lia.
Qed.

Lemma qualifies_iff (row : list value) :
  Spec.qualifies columns row = true ↔
  row ≠ []
  ∧ (∃ cell, cell ∈ row ∧ Py.truthy cell = true)
  ∧ ∃ opn_bal min_lvl,
      safe_float (Spec.field row columns "opn_bal") = Ok (Some opn_bal)
      ∧ safe_float (Spec.field row columns "min_lvl") = Ok (Some min_lvl)
      ∧ Py.float_lt opn_bal min_lvl = true.
Proof.
  unfold Spec.qualifies. rewrite andb_true_iff, negb_true_iff, is_blank_row_cells.
  destruct (safe_float_total (Spec.field row columns "opn_bal")) as [opn ->].
  destruct (safe_float_total (Spec.field row columns "min_lvl")) as [mnl ->].
  split.
  - intros [[Hne Hcell] Hlt]. split; [exact Hne|]. split; [exact Hcell|].
    destruct opn as [opn_bal|], mnl as [min_lvl|]; try discriminate. eauto.
  - intros (Hne & Hcell & opn_bal & min_lvl & [= ->] & [= ->] & Hlt). auto.
Qed.

Lemma selected_iff (header_row_idx i : nat) :
  i ∈ Spec.selected data header_row_idx columns ↔
  header_row_idx < i
  ∧ ∃ row, data !! i = Some row ∧ Spec.qualifies columns row = true.
Proof.
  unfold Spec.selected. rewrite list_elem_of_filter, range_bounds.
  unfold Spec.row_at. split.
  - intros [Hq Hi]. split; [lia|].
    destruct (lookup_lt_is_Some_2 data i ltac:(lia)) as [row Hrow].
    rewrite Hrow in Hq. eauto.
  - intros (Hi & row & Hrow & Hq). rewrite Hrow. split; [exact Hq|].
    apply lookup_lt_Some in Hrow. lia.
Qed.

Lemma filter_seq_sorted (P : nat → Prop) `{∀ i, Decision (P i)} (n a : nat) :
  StronglySorted lt (filter P (seq a n)).
Proof.
  revert a. induction n as [|n IH]; intros a.
  - constructor.
  - cbn [seq]. rewrite filter_cons. destruct (decide (P a)); [|apply IH].
    constructor; [apply IH|].
    apply Forall_forall. intros j Hj.
    apply list_elem_of_filter in Hj as [_ Hj]. apply elem_of_seq in Hj. lia.
Qed.

End Filter.

(** ** The statements of the specification *)

Section Claims.
Local Open Scope nat_scope.
Import Report.

(** C2: for every header row and every term list, [find_column_index]
    returns the lowest index of a header cell whose normalized text equals
    a normalized term or contains it, and [None] when no cell does.  The
    outer loop is over the cells: a cell at a lower index that matches a
    term listed later wins over a cell at a higher index that matches a
    term listed earlier, and the result is never beyond the first match. *)
Theorem find_column_index_lowest_match
    (header_row : list value) (search_terms : list string) :
  (∀ cell, cell_matches search_terms cell = true ↔
     ∃ term, term ∈ search_terms ∧
       (normalize_text cell = normalize_text (PyStr term)
        ∨ Spec.occurs_in (normalize_text (PyStr term)) (normalize_text cell)))
  ∧ (∀ i, find_column_index header_row search_terms = Some i ↔
       (∃ cell, header_row !! i = Some cell
                ∧ cell_matches search_terms cell = true)
       ∧ ∀ j cell, j < i → header_row !! j = Some cell →
                   cell_matches search_terms cell = false)
  ∧ (find_column_index header_row search_terms = None ↔
       ∀ cell, cell ∈ header_row → cell_matches search_terms cell = false)
  ∧ (∀ i j low high p q early late,
       i < j → header_row !! i = Some low → header_row !! j = Some high →
       p < q → search_terms !! p = Some early → search_terms !! q = Some late →
       term_matches (normalize_text low) late = true →
       term_matches (normalize_text high) early = true →
       ∃ k, find_column_index header_row search_terms = Some k ∧ k ≤ i).
Proof.
  split; [apply cell_matches_term|]. split; [|split].
  - intros i. unfold find_column_index. rewrite find_from_Some.
    replace (i - 0) with i by lia. split.
    + intros (_ & Hcell & Hlow). split; [exact Hcell | exact Hlow].
    + intros [Hcell Hlow]. split; [lia|]. split; [exact Hcell | exact Hlow].
  - apply find_from_None.
  - intros i j low high p q early late Hij Hlow Hhigh Hpq Hearly Hlate Hm _.
    assert (Hcell : cell_matches search_terms low = true).
    { unfold cell_matches. apply existsb_exists. exists late. split; [|exact Hm].
      apply list_elem_of_In, list_elem_of_lookup. eauto. }
    destruct (find_column_index header_row search_terms) as [k|] eqn:Hk.
    + exists k. split; [reflexivity|].
      unfold find_column_index in Hk. apply find_from_Some in Hk as (_ & _ & Hbelow).
      destruct (decide (k ≤ i)) as [Hle|Hgt]; [exact Hle|].
      specialize (Hbelow i low ltac:(lia) Hlow). congruence.
    + unfold find_column_index in Hk. rewrite find_from_None in Hk.
      specialize (Hk low ltac:(apply list_elem_of_lookup; eauto)). congruence.
Qed.

(** On a header with "Opening Balance" before "Opn Bal", the balance
    column resolves to index 0 although the term matching index 1 is
    listed first. *)
Lemma find_column_index_lowest_match_witness :
  ∃ k, find_column_index Example.balance_header Example.balance_terms = Some k
       ∧ k ≤ 0.
Proof.
  destruct (find_column_index_lowest_match Example.balance_header
              Example.balance_terms) as (_ & _ & _ & H).
  apply (H 0 1 (PyStr "Opening Balance") (PyStr "Opn Bal")
           1 2 "opn bal" "opening balance");
    first [lia | reflexivity].
Defined.

(** C3: for every grid and bound, when some non-empty row among the first
    [min(max_rows_to_check, len(grid))] rows has a lowercased joined text
    that contains "sno" and also "uid" or "item name", [find_header_row]
    returns the lowest such index with its row; when none has, it raises
    the not-found error, whose message names the markers.  The default
    bound is 10. *)
Theorem find_header_row_lowest (data : grid) (max_rows_to_check : Z) :
  let bound := Z.to_nat (Z.min max_rows_to_check (Z.of_nat (length data))) in
  (∀ row, Spec.is_header_row row = true ↔
     row ≠ []
     ∧ Spec.occurs_in "sno" (Py.lower (Py.join " " (map Py.str row)))
     ∧ (Spec.occurs_in "uid" (Py.lower (Py.join " " (map Py.str row)))
        ∨ Spec.occurs_in "item name" (Py.lower (Py.join " " (map Py.str row)))))
  ∧ (∀ i row, i < bound → data !! i = Some row →
       Spec.is_header_row row = true →
       ∃ k first, find_header_row data max_rows_to_check = Ok (k, first)
         ∧ k ≤ i ∧ data !! k = Some first
         ∧ Spec.is_header_row first = true
         ∧ ∀ j row', j < k → data !! j = Some row' →
                     Spec.is_header_row row' = false)
  ∧ ((∀ i row, i < bound → data !! i = Some row →
        Spec.is_header_row row = false) →
     find_header_row data max_rows_to_check = Raise header_not_found)
  ∧ (∃ msg, header_not_found = ValueError msg
       ∧ Spec.occurs_in "'Sno'" msg ∧ Spec.occurs_in "'UID'" msg)
  ∧ default_max_rows_to_check = 10%Z.
Proof.
  intros bound. split; [apply is_header_row_occurs|].
  assert (Hscan := find_header_row_loop_seq data bound 0 ltac:(unfold bound; lia)).
  replace (find_header_row_loop data (seq 0 bound))
    with (find_header_row data max_rows_to_check) in Hscan
    by (unfold find_header_row, range; fold bound; rewrite Nat.sub_0_r; reflexivity).
  split; [|split; [|split]].
  - intros i row Hi Hrow Hhdr.
    destruct Hscan as [(k & first & Hres & Hk & Hlook & Hfirst & Hlow) | [_ Hnone]].
    + exists k, first. repeat split; auto.
      * destruct (decide (k ≤ i)) as [Hle|Hgt]; [exact Hle|].
        specialize (Hlow i row ltac:(lia) Hrow). congruence.
      * intros j row' Hj. apply Hlow. lia.
    + specialize (Hnone i row ltac:(lia) Hrow). congruence.
  - intros Hnone.
    destruct Hscan as [(k & first & _ & Hk & Hlook & Hfirst & _) | [Hres _]].
    + specialize (Hnone k first ltac:(lia) Hlook). congruence.
    + exact Hres.
  - eexists. split; [reflexivity|]. split; apply contains_occurs; reflexivity.
  - reflexivity.
Qed.

(** On the sample sheet the header is found at index 2, after a title row
    and an empty row. *)
Lemma find_header_row_lowest_witness :
  ∃ k first, find_header_row Example.sheet 10 = Ok (k, first)
    ∧ k ≤ 2 ∧ Example.sheet !! k = Some first
    ∧ Spec.is_header_row first = true
    ∧ ∀ j row', j < k → Example.sheet !! j = Some row' →
                Spec.is_header_row row' = false.
Proof.
  destruct (find_header_row_lowest Example.sheet 10) as (_ & H & _).
  apply (H 2 Example.header); [vm_compute; lia | reflexivity | reflexivity].
Defined.

(** The sample column map holds the nine logical columns. *)
Lemma example_columns_ok : Spec.is_column_map Example.columns.
Proof.
  intros key Hkey. apply row_key_in in Hkey.
  repeat (destruct Hkey as [->|Hkey]); try subst key; vm_compute; eauto.
Qed.

(** C1: for every grid, header row index and column map, the filter
    returns, without raising, the items of exactly those rows after the
    header row that are not empty, have some truthy cell, whose
    opening-balance and minimum-level cells both coerce to a float, and
    whose coerced balance is strictly below the coerced minimum.  Rows
    with equal values are left out, and so are blank and unparseable
    rows. *)
Theorem filter_replenishment_items_selects
    (data : grid) (header_row_idx : nat) (columns : gmap string nat) :
  Spec.is_column_map columns →
  filter_replenishment_items data header_row_idx columns =
    Ok (map (λ i, Spec.item_of columns (Spec.row_at data i))
            (Spec.selected data header_row_idx columns))
  ∧ (∀ i, i ∈ Spec.selected data header_row_idx columns ↔
       header_row_idx < i
       ∧ ∃ row, data !! i = Some row
         ∧ row ≠ []
         ∧ (∃ cell, cell ∈ row ∧ Py.truthy cell = true)
         ∧ ∃ opn_bal min_lvl,
             safe_float (Spec.field row columns "opn_bal") = Ok (Some opn_bal)
             ∧ safe_float (Spec.field row columns "min_lvl") = Ok (Some min_lvl)
             ∧ Py.float_lt opn_bal min_lvl = true)
  ∧ (∀ i row opn_bal min_lvl, data !! i = Some row →
       safe_float (Spec.field row columns "opn_bal") = Ok (Some opn_bal) →
       safe_float (Spec.field row columns "min_lvl") = Ok (Some min_lvl) →
       SFeqb opn_bal min_lvl = true →
       i ∉ Spec.selected data header_row_idx columns)
  ∧ (∀ i row, data !! i = Some row →
       safe_float (Spec.field row columns "opn_bal") = Ok None
       ∨ safe_float (Spec.field row columns "min_lvl") = Ok None
       ∨ is_blank_row row = true →
       i ∉ Spec.selected data header_row_idx columns).
Proof.
  intros Hcols.
  assert (Hsel : ∀ i, i ∈ Spec.selected data header_row_idx columns ↔
       header_row_idx < i
       ∧ ∃ row, data !! i = Some row
         ∧ row ≠ []
         ∧ (∃ cell, cell ∈ row ∧ Py.truthy cell = true)
         ∧ ∃ opn_bal min_lvl,
             safe_float (Spec.field row columns "opn_bal") = Ok (Some opn_bal)
             ∧ safe_float (Spec.field row columns "min_lvl") = Ok (Some min_lvl)
             ∧ Py.float_lt opn_bal min_lvl = true).
  { intros i. rewrite selected_iff. split.
    - intros (Hi & row & Hrow & Hq). split; [exact Hi|]. exists row.
      split; [exact Hrow|]. apply qualifies_iff. exact Hq.
    - intros (Hi & row & Hrow & Hq). split; [exact Hi|]. exists row.
      split; [exact Hrow|]. apply qualifies_iff. exact Hq. }
  split; [apply filter_selected; exact Hcols|]. split; [exact Hsel|]. split.
  - intros i row opn_bal min_lvl Hrow Hopn Hmin Heq Hin.
    apply Hsel in Hin as (_ & row' & Hrow' & _ & _ & a & b & Ha & Hb & Hlt).
    assert (row' = row) as -> by congruence.
    assert (a = opn_bal) as -> by congruence.
    assert (b = min_lvl) as -> by congruence.
    rewrite (float_lt_eqb _ _ Heq) in Hlt. discriminate.
  - intros i row Hrow Hskip Hin.
    apply Hsel in Hin as (_ & row' & Hrow' & Hne & Hcell & a & b & Ha & Hb & _).
    assert (row' = row) as -> by congruence.
    destruct Hskip as [H|[H|H]]; [congruence | congruence |].
    assert (is_blank_row row = false) by (apply is_blank_row_cells; auto).
    congruence.
Qed.

(** On the sample sheet, with its header at index 2, only the rows at
    indices 3 and 9 are kept: the row at 5 has equal values, the row at 6
    is blank, the row at 7 is too short and the row at 8 holds a note. *)
Lemma filter_replenishment_items_selects_witness :
  Spec.is_column_map Example.columns
  ∧ filter_replenishment_items Example.sheet 2 Example.columns =
      Ok [Spec.item_of Example.columns Example.low_row;
          Spec.item_of Example.columns Example.last_row].
Proof.
  split; [exact example_columns_ok|].
  destruct (filter_replenishment_items_selects Example.sheet 2 Example.columns
              example_columns_ok) as [H _].
  rewrite H. vm_compute. reflexivity.
Defined.

(** C4: [safe_float] gives no value for [None] and for the empty text;
    otherwise it parses [str(value)] with its commas removed and its
    white space stripped as a float, and gives no value, not an
    exception, when the parse raises.  "1,234" coerces to 1234.0 and
    "abc" to no value. *)
Theorem safe_float_coerces :
  safe_float PyNone = Ok None
  ∧ safe_float (PyStr EmptyString) = Ok None
  ∧ (∀ v, v ≠ PyNone → v ≠ PyStr EmptyString →
       let cleaned := Py.strip (Py.remove_char "," (Py.str v)) in
       (∀ x, Py.float cleaned = Ok x → safe_float v = Ok (Some x))
       ∧ (∀ e, Py.float cleaned = Raise e → safe_float v = Ok None))
  ∧ (∀ v, ∃ o, safe_float v = Ok o)
  ∧ (∃ x, safe_float (PyStr "1,234") = Ok (Some x) ∧ Spec.float_is_int x 1234)
  ∧ safe_float (PyStr "abc") = Ok None.
Proof.
  split; [reflexivity|]. split; [reflexivity|]. split; [|split; [|split]].
  - intros v Hnone Hempty cleaned.
    assert (Hguard : is_none v || is_empty_str v = false).
    { destruct v as [|[|c s]|z]; try reflexivity; congruence. }
    unfold safe_float. rewrite Hguard. fold cleaned. split.
    + intros x ->. reflexivity.
    + intros e He. rewrite He. rewrite (float_raises _ _ He). reflexivity.
  - apply safe_float_total.
  - eexists. split; [vm_compute; reflexivity|]. vm_compute. split; [discriminate | reflexivity].
  - vm_compute. reflexivity.
Qed.

(** A priced cell with a thousands separator and blanks around it. *)
Lemma safe_float_coerces_witness :
  ∃ x, safe_float (PyStr " 2,500.75 ") = Ok (Some x).
Proof.
  destruct safe_float_coerces as (_ & _ & H & _).
  destruct (H (PyStr " 2,500.75 ")) as [Hok _]; [discriminate | discriminate |].
  eexists. apply Hok. vm_compute. reflexivity.
Defined.

(** C7: for every row, however short, and every column map, the row
    extractor returns a record of the nine fields: under each key the cell
    [row[index]] when the index is below the length of the row, and the
    empty text otherwise. *)
Theorem extract_row_data_total (row : list value) (columns : gmap string nat) :
  Spec.is_column_map columns →
  ∃ row_data, extract_row_data row columns = Ok row_data
    ∧ dom row_data = list_to_set row_keys
    ∧ ∀ key, key ∈ row_keys →
        ∃ idx cell, columns !! key = Some idx ∧ row_data !! key = Some cell
          ∧ (idx < length row → row !! idx = Some cell)
          ∧ (length row ≤ idx → cell = PyStr EmptyString).
Proof.
  intros Hcols. exists (Spec.row_data_of columns row).
  split; [apply extract_row_data_ok; exact Hcols|].
  split; [reflexivity|].
  intros key Hkey. destruct (Hcols key Hkey) as [idx Hidx].
  exists idx, (Spec.field row columns key). split; [exact Hidx|].
  split; [|split].
  - apply row_key_in in Hkey.
    repeat (destruct Hkey as [->|Hkey]); try subst key; reflexivity.
  - intros Hlt. unfold Spec.field, Spec.cell_or_blank. rewrite Hidx. simpl.
    destruct (lookup_lt_is_Some_2 row idx Hlt) as [v Hv]. rewrite Hv. reflexivity.
  - intros Hge. unfold Spec.field, Spec.cell_or_blank. rewrite Hidx. simpl.
    rewrite (lookup_ge_None_2 row idx Hge). reflexivity.
Qed.

(** The short sample row has two cells: its sequence number is read, its
    balance, at index 8, is the empty text. *)
Lemma extract_row_data_total_witness :
  Spec.is_column_map Example.columns
  ∧ ∃ row_data, extract_row_data Example.short_row Example.columns = Ok row_data
      ∧ row_data !! "sno" = Some (PyInt 4)
      ∧ row_data !! "opn_bal" = Some (PyStr EmptyString).
Proof.
  split; [exact example_columns_ok|].
  destruct (extract_row_data_total Example.short_row Example.columns
              example_columns_ok) as (row_data & Hok & _ & _).
  exists row_data. split; [exact Hok|].
  vm_compute in Hok. injection Hok as <-. split; reflexivity.
Defined.

(** C5, as the code has it: when some logical column has no matching
    header cell, the resolver raises the missing-column error of the
    first such column of the catalog (that very column when it is the
    only one), whose message names the column, the terms searched and the
    whole header row; no index is substituted.  A map is returned only
    with all nine columns resolved, each to the index
    [find_column_index] gives. *)
Theorem find_all_columns_missing (header_row : list value) :
  (∀ d, d ∈ column_definitions →
     find_column_index header_row (Spec.terms_of d) = None →
     ∃ pre d' post,
       column_definitions = pre ++ d' :: post
       ∧ Forall (Spec.resolves header_row) pre
       ∧ find_column_index header_row (Spec.terms_of d') = None
       ∧ find_all_columns header_row =
           Raise (missing_column d'.1 (Spec.terms_of d') header_row)
       ∧ ((∀ other, other ∈ column_definitions → other ≠ d →
             Spec.resolves header_row other) → d' = d))
  ∧ (∀ col_name search_terms, ∃ msg,
       missing_column col_name search_terms header_row = ValueError msg
       ∧ Spec.occurs_in ("'" +:+ col_name +:+ "'") msg
       ∧ Spec.occurs_in ("Searched for: " +:+ Py.join ", " search_terms) msg
       ∧ Spec.occurs_in ("Header row: " +:+ Py.repr_list header_row) msg)
  ∧ (∀ columns, find_all_columns header_row = Ok columns →
       (∀ d, d ∈ column_definitions →
          ∃ idx, find_column_index header_row (Spec.terms_of d) = Some idx
                 ∧ columns !! d.1 = Some idx)
       ∧ Spec.is_column_map columns
       ∧ ∀ key, key ∉ catalog_keys → columns !! key = None)
  ∧ length column_definitions = 9.
Proof.
  split; [|split; [|split]].
  - intros d Hd Hnone.
    destruct (first_unresolved header_row column_definitions)
      as [Hall | (pre & d' & post & Heq & Hpre & Hnone')].
    + rewrite Forall_forall in Hall. destruct (Hall d Hd) as [idx Hidx]. congruence.
    + exists pre, d', post. split; [exact Heq|]. split; [exact Hpre|].
      split; [exact Hnone'|]. split.
      * unfold find_all_columns. rewrite Heq.
        apply find_all_columns_loop_raise; assumption.
      * intros Hothers. destruct (decide (d' = d)) as [Heqd|Hne]; [exact Heqd|].
        assert (Hin : d' ∈ column_definitions).
        { rewrite Heq. apply elem_of_app. right. left. }
        destruct (Hothers d' Hin Hne) as [idx Hidx]. congruence.
  - intros col_name search_terms. eexists. split; [reflexivity|].
    split; [|split].
    + change ("Required column '" +:+ col_name
              +:+ "' not found in header row." +:+ nl
              +:+ "Searched for: " +:+ Py.join ", " search_terms +:+ nl
              +:+ "Header row: " +:+ Py.repr_list header_row)
        with ("Required column " +:+ "'" +:+ col_name +:+ "'"
              +:+ " not found in header row." +:+ nl
              +:+ "Searched for: " +:+ Py.join ", " search_terms +:+ nl
              +:+ "Header row: " +:+ Py.repr_list header_row).
      apply occurs_in_append. eexists EmptyString, _.
      rewrite append_nil, !append_assoc. reflexivity.
    + do 4 apply occurs_in_append. eexists EmptyString, _.
      rewrite append_nil, !append_assoc. reflexivity.
    + do 7 apply occurs_in_append. apply occurs_in_refl.
  - intros columns Hok.
    destruct (find_all_columns_loop_ok header_row column_definitions ∅ columns)
      as [Hin Hout]; [exact catalog_keys_nodup | exact Hok |].
    assert (Hres : ∀ d, d ∈ column_definitions →
          ∃ idx, find_column_index header_row (Spec.terms_of d) = Some idx
                 ∧ columns !! d.1 = Some idx).
    { intros d Hd. destruct (Hin d Hd) as [[idx Hidx] Heq].
      exists idx. split; congruence. }
    split; [exact Hres|]. split.
    + intros key Hkey. apply row_key_in in Hkey.
      assert (Hcat : key ∈ column_definitions.*1).
      { rewrite column_definitions_keys. unfold catalog_keys.
        rewrite !elem_of_cons, elem_of_nil. tauto. }
      apply list_elem_of_fmap in Hcat as (d & -> & Hd).
      destruct (Hres d Hd) as (idx & _ & Hidx). eauto.
    + intros key Hkey. rewrite (Hout key Hkey). apply lookup_empty.
  - reflexivity.
Qed.

(** The partial sample header lacks both the bush and the group column;
    the error names bush, the first of the two in the catalog. *)
Lemma find_all_columns_missing_witness :
  ∃ pre d' post,
    column_definitions = pre ++ d' :: post
    ∧ find_all_columns Example.partial_header =
        Raise (missing_column d'.1 (Spec.terms_of d') Example.partial_header)
    ∧ find_all_columns Example.partial_header =
        Raise (missing_column "bush" ["bush"] Example.partial_header).
Proof.
  destruct (find_all_columns_missing Example.partial_header) as [H _].
  destruct (H ("group", [["group"]])) as (pre & d' & post & Heq & _ & _ & Hraise & _).
  - unfold column_definitions. set_solver.
  - vm_compute. reflexivity.
  - exists pre, d', post. split; [exact Heq|]. split; [exact Hraise|].
    vm_compute. reflexivity.
Defined.

(** C5, as stated, fails: the partial sample header has no cell for the
    group column, yet the error does not name group; it names bush, which
    has no cell either and comes first in the catalog. *)
Lemma missing_column_names_first_only :
  ("group", [["group"]]) ∈ column_definitions
  ∧ find_column_index Example.partial_header ["group"] = None
  ∧ find_all_columns Example.partial_header =
      Raise (missing_column "bush" ["bush"] Example.partial_header)
  ∧ find_all_columns Example.partial_header ≠
      Raise (missing_column "group" ["group"] Example.partial_header).
Proof.
  split; [unfold column_definitions; rewrite !elem_of_cons; tauto|].
  split; [vm_compute; reflexivity|]. split; [vm_compute; reflexivity|].
  intros H. vm_compute in H. discriminate H.
Qed.

(** C6: for every grid the output list follows the ascending order of
    the row indices, and every output item has exactly the seven keys
    Sno., UID, Bush, Group, Last I.O Raised, Category and Stock Location,
    each with the matching field of its row; the opening balance and the
    minimum level have no key in it. *)
Theorem filter_replenishment_items_order_fields
    (data : grid) (header_row_idx : nat) (columns : gmap string nat) :
  Spec.is_column_map columns →
  ∃ kept,
    filter_replenishment_items data header_row_idx columns =
      Ok (map (λ i, Spec.item_of columns (Spec.row_at data i)) kept)
    ∧ StronglySorted lt kept
    ∧ (∀ i, i ∈ kept → header_row_idx < i < length data)
    ∧ ∀ row,
        dom (Spec.item_of columns row) =
          list_to_set ["Sno."; "UID"; "Bush"; "Group"; "Last I.O Raised";
                       "Category"; "Stock Location"]
        ∧ size (Spec.item_of columns row) = 7
        ∧ Spec.item_of columns row !! "Sno." = Some (Spec.field row columns "sno")
        ∧ Spec.item_of columns row !! "UID" = Some (Spec.field row columns "uid")
        ∧ Spec.item_of columns row !! "Bush" = Some (Spec.field row columns "bush")
        ∧ Spec.item_of columns row !! "Group" = Some (Spec.field row columns "group")
        ∧ Spec.item_of columns row !! "Last I.O Raised"
            = Some (Spec.field row columns "last_io_raised")
        ∧ Spec.item_of columns row !! "Category"
            = Some (Spec.field row columns "category")
        ∧ Spec.item_of columns row !! "Stock Location"
            = Some (Spec.field row columns "stock_location")
        ∧ Spec.item_of columns row !! "opn_bal" = None
        ∧ Spec.item_of columns row !! "min_lvl" = None.
Proof.
  intros Hcols. exists (Spec.selected data header_row_idx columns).
  split; [apply filter_selected; exact Hcols|]. split; [|split].
  - unfold Spec.selected, range. apply filter_seq_sorted.
  - intros i Hi. unfold Spec.selected in Hi.
    apply list_elem_of_filter in Hi as [_ Hi]. apply range_bounds in Hi. lia.
  - intros row. unfold Spec.item_of.
    generalize (Spec.field row columns "sno") (Spec.field row columns "uid")
      (Spec.field row columns "bush") (Spec.field row columns "group")
      (Spec.field row columns "last_io_raised")
      (Spec.field row columns "category")
      (Spec.field row columns "stock_location").
    intros sno uid bush group last_io category location.
    repeat split; reflexivity.
Qed.

(** On the sample sheet the kept rows are those at indices 3 and 9, in
    that order. *)
Lemma filter_replenishment_items_order_fields_witness :
  Spec.is_column_map Example.columns
  ∧ ∃ kept,
      filter_replenishment_items Example.sheet 2 Example.columns =
        Ok (map (λ i, Spec.item_of Example.columns (Spec.row_at Example.sheet i)) kept)
      ∧ StronglySorted lt kept.
Proof.
  split; [exact example_columns_ok|].
  destruct (filter_replenishment_items_order_fields Example.sheet 2
              Example.columns example_columns_ok) as (kept & Hok & Hsorted & _).
  exists kept. split; [exact Hok | exact Hsorted].
Defined.

(** C8, as the code has it: both failures are raised as [ValueError],
    told apart by their message only.  The missing-column message names
    the column, the terms searched and the header row.  The message of the
    header locator is one fixed text, naming the markers 'Sno' and 'UID':
    it depends neither on the row bound nor on the grid. *)
Theorem failures_are_value_errors :
  (∀ (data : grid) (max_rows_to_check : Z) e,
     find_header_row data max_rows_to_check = Raise e →
     e = ValueError
           "Could not find header row. Expected to find 'Sno' and 'UID' columns.")
  ∧ (∀ (header_row : list value) e,
       find_all_columns header_row = Raise e →
       ∃ d, d ∈ column_definitions
         ∧ find_column_index header_row (Spec.terms_of d) = None
         ∧ e = ValueError
                 ("Required column '" +:+ d.1 +:+ "' not found in header row."
                  +:+ nl +:+ "Searched for: " +:+ Py.join ", " (Spec.terms_of d)
                  +:+ nl +:+ "Header row: " +:+ Py.repr_list header_row))
  ∧ (∀ (data : grid) (max_rows_to_check : Z) (header_row : list value) e1 e2,
       find_header_row data max_rows_to_check = Raise e1 →
       find_all_columns header_row = Raise e2 →
       e1 ≠ e2 ∧ ∃ msg1 msg2, e1 = ValueError msg1 ∧ e2 = ValueError msg2).
Proof.
  assert (Hhdr : ∀ (data : grid) (max_rows_to_check : Z) e,
     find_header_row data max_rows_to_check = Raise e → e = header_not_found).
  { intros data max_rows_to_check e He.
    set (bound := Z.to_nat (Z.min max_rows_to_check (Z.of_nat (length data)))).
    assert (Hscan := find_header_row_loop_seq data bound 0 ltac:(unfold bound; lia)).
    replace (find_header_row_loop data (seq 0 bound))
      with (find_header_row data max_rows_to_check) in Hscan
      by (unfold find_header_row, range; fold bound; rewrite Nat.sub_0_r; reflexivity).
    destruct Hscan as [(k & first & Hres & _) | [Hres _]]; congruence. }
  assert (Hcol : ∀ (header_row : list value) e,
       find_all_columns header_row = Raise e →
       ∃ d, d ∈ column_definitions
         ∧ find_column_index header_row (Spec.terms_of d) = None
         ∧ e = missing_column d.1 (Spec.terms_of d) header_row).
  { intros header_row e He.
    destruct (first_unresolved header_row column_definitions)
      as [Hall | (pre & d & post & Heq & Hpre & Hnone)].
    - destruct (find_all_columns_loop_total header_row column_definitions ∅ Hall)
        as [columns Hok].
      unfold find_all_columns in He. congruence.
    - exists d. split; [rewrite Heq; apply elem_of_app; right; left|].
      split; [exact Hnone|].
      unfold find_all_columns in He. rewrite Heq in He.
      rewrite (find_all_columns_loop_raise header_row pre post d ∅ Hpre Hnone) in He.
      congruence. }
  split; [exact Hhdr|]. split; [exact Hcol|].
  intros data max_rows_to_check header_row e1 e2 H1 H2.
  apply Hhdr in H1 as ->. apply Hcol in H2 as (d & _ & _ & ->).
  split; [|eexists _, _; split; reflexivity].
  unfold header_not_found, missing_column. intros H. discriminate H.
Qed.

(** The two failures on an empty grid and an empty header row. *)
Lemma failures_are_value_errors_witness :
  ∃ msg1 msg2,
    find_header_row [] 10 = Raise (ValueError msg1)
    ∧ find_all_columns [] = Raise (ValueError msg2)
    ∧ ValueError msg1 ≠ ValueError msg2.
Proof.
  destruct failures_are_value_errors as (_ & _ & H).
  destruct (H [] 10%Z [] header_not_found (missing_column "sno" ["sno"; "sno."] []))
    as (Hne & msg1 & msg2 & H1 & H2); [reflexivity | reflexivity |].
  exists msg1, msg2. rewrite <- H1, <- H2.
  split; [reflexivity|]. split; [reflexivity | exact Hne].
Defined.

(** C8, as stated, fails: the header locator raises the very same error
    under the bounds 10 and 1, its message holds neither bound and nothing
    of the grid, and the column resolver raises an error of the same
    class. *)
Lemma header_error_omits_row_bound :
  ∃ msg msg',
    find_header_row [[PyStr "Title"]] 10 = Raise (ValueError msg)
    ∧ find_header_row [[PyStr "Title"]] 1 = Raise (ValueError msg)
    ∧ Py.contains "10" msg = false
    ∧ Py.contains "1" msg = false
    ∧ Py.contains "Title" msg = false
    ∧ find_all_columns [PyStr "Title"] = Raise (ValueError msg').
Proof.
  eexists _, _. repeat split; vm_compute; reflexivity.
Qed.

(** With items to save and a file that opens, the export does write the
    file, from the header line on. *)
Lemma save_to_csv_writes (item : gmap string value)
    (items : list (gmap string value)) (filename : string) (w : world) :
  open_error w filename = None →
  ∃ written,
    files (save_to_csv (item :: items) filename w).1 !! filename
      = Some (csv_line (map PyStr csv_headers) +:+ written).
Proof.
  intros Hopen. unfold save_to_csv. rewrite Hopen.
  assert (Hrows : ∀ rows start, ∃ more,
            (writerows rows start).1 = start +:+ more).
  { induction rows as [|r rows IH]; intros start.
    - exists EmptyString. simpl. rewrite append_nil_r. reflexivity.
    - simpl. destruct (dict_to_list r) as [fields|e].
      + destruct (IH (start +:+ csv_line fields)) as [more ->].
        exists (csv_line fields +:+ more). rewrite append_assoc. reflexivity.
      + exists EmptyString. simpl. rewrite append_nil_r. reflexivity. }
  destruct (Hrows (item :: items) (csv_line (map PyStr csv_headers))) as [more Hmore].
  exists more.
  destruct (writerows (item :: items) (csv_line (map PyStr csv_headers)))
    as [written [[]|e]]; simpl in *; subst written; apply lookup_insert_eq.
Qed.

(** C9: with no item to save the export writes no file: the files are
    those it found, the file named included, and it returns normally after
    printing one line.  So a grid none of whose rows after the header
    qualifies gives the empty list of items, and no file. *)
Theorem save_to_csv_empty_is_noop (filename : string) (w : world) :
  save_to_csv [] filename w = (print (nl +:+ "No items to save to CSV.") w, Ok tt)
  ∧ files (save_to_csv [] filename w).1 = files w
  ∧ files (save_to_csv [] filename w).1 !! filename = files w !! filename
  ∧ ∀ (data : grid) (header_row_idx : nat) (columns : gmap string nat),
      Spec.is_column_map columns →
      (∀ i row, header_row_idx < i → data !! i = Some row →
                Spec.qualifies columns row = false) →
      ∃ items,
        filter_replenishment_items data header_row_idx columns = Ok items
        ∧ items = []
        ∧ files (save_to_csv items filename w).1 = files w
        ∧ (save_to_csv items filename w).2 = Ok tt.
Proof.
  split; [reflexivity|]. split; [reflexivity|]. split; [reflexivity|].
  intros data header_row_idx columns Hcols Hnone.
  assert (Hsel : Spec.selected data header_row_idx columns = []).
  { apply elem_of_nil_inv. intros i Hi.
    apply selected_iff in Hi as (Hlt & row & Hrow & Hq).
    rewrite (Hnone i row Hlt Hrow) in Hq. discriminate. }
  exists []. rewrite (filter_selected data columns Hcols), Hsel.
  repeat split; reflexivity.
Qed.

(** A sheet whose two data rows are fully stocked: no item, and the
    export leaves an empty file system empty. *)
Lemma save_to_csv_empty_is_noop_witness :
  Spec.is_column_map Example.columns
  ∧ ∃ items,
      filter_replenishment_items [Example.header; Example.full_row; Example.level_row]
        0 Example.columns = Ok items
      ∧ items = []
      ∧ files (save_to_csv items OUTPUT_CSV Example.empty_world).1 = ∅.
Proof.
  split; [exact example_columns_ok|].
  destruct (save_to_csv_empty_is_noop OUTPUT_CSV Example.empty_world)
    as (_ & _ & _ & H).
  destruct (H [Example.header; Example.full_row; Example.level_row] 0
              Example.columns example_columns_ok) as (items & Hok & Hnil & Hfiles & _).
  - intros [|[|[|i]]] row Hi Hrow; try lia; simpl in Hrow;
      try discriminate; injection Hrow as <-; vm_compute; reflexivity.
  - exists items. split; [exact Hok|]. split; [exact Hnil|]. exact Hfiles.
Defined.

(** C10: the resolved map need not be injective.  In the merged sample
    header the cell at index 2 holds the terms of both the bush and the
    group column; the resolver returns a map that sends both to 2. *)
Theorem find_all_columns_not_injective :
  ∃ header_row columns c1 c2 idx cell,
    c1 ∈ catalog_keys ∧ c2 ∈ catalog_keys ∧ c1 ≠ c2
    ∧ find_all_columns header_row = Ok columns
    ∧ columns !! c1 = Some idx ∧ columns !! c2 = Some idx
    ∧ header_row !! idx = Some cell
    ∧ Spec.occurs_in "bush" (normalize_text cell)
    ∧ Spec.occurs_in "group" (normalize_text cell).
Proof.
  exists Example.merged_header.
  eexists _, "bush", "group", 2, (PyStr "Bush / Group").
  split; [unfold catalog_keys; rewrite !elem_of_cons; tauto|].
  split; [unfold catalog_keys; rewrite !elem_of_cons; tauto|].
  split; [discriminate|].
  split; [vm_compute; reflexivity|].
  split; [vm_compute; reflexivity|].
  split; [vm_compute; reflexivity|].
  split; [reflexivity|].
  split; apply contains_occurs; vm_compute; reflexivity.
Qed.

End Claims.

(** ** Further properties: the text normalizer *)

Section Normalizer.
Import Report.

Lemma lower_char_idem (c : ascii) :
  Py.lower_char (Py.lower_char c) = Py.lower_char c.
Proof. destruct c as [[] [] [] [] [] [] [] []]; reflexivity. Qed.

Lemma isspace_lower_char (c : ascii) :
  Py.isspace (Py.lower_char c) = Py.isspace c.
Proof. destruct c as [[] [] [] [] [] [] [] []]; reflexivity. Qed.

Lemma lower_char_space (c : ascii) :
  Py.isspace c = true → Py.lower_char c = c.
Proof. destruct c as [[] [] [] [] [] [] [] []]; vm_compute; congruence. Qed.

Lemma lower_idem (s : string) : Py.lower (Py.lower s) = Py.lower s.
Proof.
  induction s as [|c s IH]; [reflexivity|]. simpl. rewrite lower_char_idem, IH.
  reflexivity.
Qed.

Lemma lower_append (a b : string) :
  Py.lower (a +:+ b) = Py.lower a +:+ Py.lower b.
Proof.
  induction a as [|c a IH]; [reflexivity|].
  rewrite append_cons. simpl. rewrite IH, append_cons. reflexivity.
Qed.

Lemma all_space_lower (s : string) :
  Props.all_space s = true → Py.lower s = s.
Proof.
  induction s as [|c s IH]; [reflexivity|]. simpl.
  intros [Hc Hs]%andb_true_iff. rewrite (lower_char_space c Hc), (IH Hs).
  reflexivity.
Qed.

Lemma lstrip_lower (s : string) :
  Py.lstrip_with Py.isspace (Py.lower s) = Py.lower (Py.lstrip_with Py.isspace s).
Proof.
  induction s as [|c s IH]; [reflexivity|]. simpl.
  rewrite isspace_lower_char. destruct (Py.isspace c); [exact IH | reflexivity].
Qed.

Lemma rstrip_lower (s : string) :
  Py.rstrip_with Py.isspace (Py.lower s) = Py.lower (Py.rstrip_with Py.isspace s).
Proof.
  induction s as [|c s IH]; [reflexivity|]. simpl. rewrite IH, isspace_lower_char.
  destruct (Py.rstrip_with Py.isspace s) as [|d r]; simpl.
  - destruct (Py.isspace c); reflexivity.
  - reflexivity.
Qed.

Lemma collapse_lower (b : bool) (s : string) :
  Py.collapse_from b (Py.lower s) = Py.lower (Py.collapse_from b s).
Proof.
  revert b. induction s as [|c s IH]; intros b; [reflexivity|]. simpl.
  rewrite isspace_lower_char. destruct (Py.isspace c).
  - destruct b; simpl; rewrite IH; reflexivity.
  - simpl. rewrite IH. reflexivity.
Qed.

(** The text of a value is lowered last or first, as one likes. *)
Lemma normalize_lower (s : string) :
  Py.collapse_spaces (Py.strip (Py.lower s)) =
    Py.lower (Py.collapse_spaces (Py.strip s)).
Proof.
  unfold Py.collapse_spaces, Py.strip.
  rewrite lstrip_lower, rstrip_lower, collapse_lower. reflexivity.
Qed.

Lemma starts_clean_lstrip (s : string) :
  Props.starts_clean (Py.lstrip_with Py.isspace s) = true.
Proof.
  induction s as [|c s IH]; [reflexivity|]. simpl.
  destruct (Py.isspace c) eqn:Hc; [exact IH|]. simpl. rewrite Hc. reflexivity.
Qed.

Lemma starts_clean_rstrip (s : string) :
  Props.starts_clean s = true →
  Props.starts_clean (Py.rstrip_with Py.isspace s) = true.
Proof.
  destruct s as [|c s]; [reflexivity|]. simpl. intros Hc.
  destruct (Py.rstrip_with Py.isspace s); [|exact Hc].
  apply negb_true_iff in Hc. rewrite Hc. simpl. rewrite Hc. reflexivity.
Qed.

Lemma ends_clean_rstrip (s : string) :
  Props.ends_clean (Py.rstrip_with Py.isspace s) = true.
Proof.
  induction s as [|c s IH]; [reflexivity|]. simpl.
  destruct (Py.rstrip_with Py.isspace s) as [|d r].
  - destruct (Py.isspace c) eqn:Hc; [reflexivity|]. simpl. rewrite Hc. reflexivity.
  - exact IH.
Qed.

Lemma starts_clean_collapse (b : bool) (s : string) :
  Props.starts_clean s = true →
  Props.starts_clean (Py.collapse_from b s) = true.
Proof.
  destruct s as [|c s]; [reflexivity|]. simpl. intros Hc.
  apply negb_true_iff in Hc. rewrite Hc. simpl. rewrite Hc. reflexivity.
Qed.

Lemma collapse_nonempty (b : bool) (s : string) :
  Props.ends_clean s = true → s ≠ EmptyString →
  Py.collapse_from b s ≠ EmptyString.
Proof.
  revert b. induction s as [|c s IH]; intros b Hend Hne; [congruence|].
  simpl in *. destruct s as [|d s'].
  - apply negb_true_iff in Hend. rewrite Hend. discriminate.
  - specialize (IH (Py.isspace c) Hend ltac:(discriminate)).
    destruct (Py.isspace c); [destruct b|]; try discriminate. exact (IH).
Qed.

Lemma ends_clean_collapse (b : bool) (s : string) :
  Props.ends_clean s = true →
  Props.ends_clean (Py.collapse_from b s) = true.
Proof.
  revert b. induction s as [|c s IH]; intros b Hend; [reflexivity|].
  cbn [Py.collapse_from]. cbn [Props.ends_clean] in Hend. destruct s as [|d s'].
  - apply negb_true_iff in Hend. rewrite Hend. simpl. rewrite Hend. reflexivity.
  - assert (Hrest : ∀ b', Props.ends_clean (Py.collapse_from b' (String d s')) = true)
      by (intros b'; apply IH; exact Hend).
    assert (Hne : ∀ b', Py.collapse_from b' (String d s') ≠ EmptyString)
      by (intros b'; apply collapse_nonempty; [exact Hend | discriminate]).
    assert (Hcons : ∀ x b', Props.ends_clean
              (String x (Py.collapse_from b' (String d s'))) = true).
    { intros x b'. specialize (Hrest b'). specialize (Hne b').
      destruct (Py.collapse_from b' (String d s')); [congruence | exact Hrest]. }
    destruct (Py.isspace c); [destruct b|]; auto.
Qed.

Lemma single_spaced_collapse (b : bool) (s : string) :
  Props.single_spaced b (Py.collapse_from b s) = true.
Proof.
  revert b. induction s as [|c s IH]; intros b; [reflexivity|]. simpl.
  destruct (Py.isspace c) eqn:Hc.
  - destruct b; [apply IH|]. simpl. apply IH.
  - simpl. rewrite Hc. apply IH.
Qed.

Lemma lstrip_clean (s : string) :
  Props.starts_clean s = true → Py.lstrip_with Py.isspace s = s.
Proof.
  destruct s as [|c s]; [reflexivity|]. simpl. intros Hc.
  apply negb_true_iff in Hc. rewrite Hc. reflexivity.
Qed.

Lemma rstrip_clean (s : string) :
  Props.ends_clean s = true → Py.rstrip_with Py.isspace s = s.
Proof.
  induction s as [|c s IH]; [reflexivity|]. cbn [Props.ends_clean Py.rstrip_with].
  destruct s as [|d s'].
  - intros Hc. apply negb_true_iff in Hc. simpl. rewrite Hc. reflexivity.
  - intros Hend. rewrite (IH Hend). reflexivity.
Qed.

Lemma collapse_single_spaced (b : bool) (s : string) :
  Props.single_spaced b s = true → Py.collapse_from b s = s.
Proof.
  revert b. induction s as [|c s IH]; intros b; [reflexivity|]. simpl.
  destruct (Py.isspace c).
  - intros [[Hc Hb]%andb_true_iff Hs]%andb_true_iff.
    apply negb_true_iff in Hb. subst b. apply Ascii.eqb_eq in Hc. subst c.
    rewrite (IH true Hs). reflexivity.
  - intros Hs. rewrite (IH false Hs). reflexivity.
Qed.

Lemma normal_parts (s : string) :
  Props.normal s = true ↔
  Props.starts_clean s = true ∧ Props.ends_clean s = true
  ∧ Props.single_spaced false s = true ∧ Py.lower s = s.
Proof.
  unfold Props.normal. rewrite !andb_true_iff, String.eqb_eq. tauto.
Qed.

Lemma cleaned_normal (s : string) :
  Props.normal (Py.collapse_spaces (Py.strip (Py.lower s))) = true.
Proof.
  apply normal_parts. split; [|split; [|split]].
  - apply starts_clean_collapse, starts_clean_rstrip, starts_clean_lstrip.
  - apply ends_clean_collapse, ends_clean_rstrip.
  - apply single_spaced_collapse.
  - rewrite normalize_lower, lower_idem. reflexivity.
Qed.

Lemma normal_fixed (s : string) :
  Props.normal s = true → normalize_text (PyStr s) = s.
Proof.
  intros (Hstart & Hend & Hsingle & Hlower)%normal_parts.
  unfold normalize_text. destruct s as [|c s]; [reflexivity|].
  cbn [Py.truthy String.eqb negb Py.str]. rewrite Hlower.
  unfold Py.strip, Py.collapse_spaces.
  rewrite (lstrip_clean _ Hstart), (rstrip_clean _ Hend).
  apply collapse_single_spaced. exact Hsingle.
Qed.

Lemma normalize_text_is_normal (text : value) :
  Props.normal (normalize_text text) = true.
Proof.
  unfold normalize_text. destruct (negb (Py.truthy text)); [reflexivity|].
  apply cleaned_normal.
Qed.

End Normalizer.

(** ** Further properties: padding and separators *)

Section Padding.
Import Report.

Lemma all_space_append (a b : string) :
  Props.all_space (a +:+ b) = Props.all_space a && Props.all_space b.
Proof.
  induction a as [|c a IH]; [reflexivity|].
  rewrite append_cons. simpl. rewrite IH, andb_assoc. reflexivity.
Qed.

Lemma lstrip_all_space (a : string) :
  Props.all_space a = true → Py.lstrip_with Py.isspace a = EmptyString.
Proof.
  induction a as [|c a IH]; [reflexivity|]. simpl.
  intros [Hc Ha]%andb_true_iff. rewrite Hc. exact (IH Ha).
Qed.

Lemma rstrip_all_space (b : string) :
  Props.all_space b = true → Py.rstrip_with Py.isspace b = EmptyString.
Proof.
  induction b as [|c b IH]; [reflexivity|]. simpl.
  intros [Hc Hb]%andb_true_iff. rewrite (IH Hb), Hc. reflexivity.
Qed.

Lemma lstrip_pad (a s : string) :
  Props.all_space a = true →
  Py.lstrip_with Py.isspace (a +:+ s) = Py.lstrip_with Py.isspace s.
Proof.
  induction a as [|c a IH]; [reflexivity|]. rewrite append_cons. simpl.
  intros [Hc Ha]%andb_true_iff. rewrite Hc. exact (IH Ha).
Qed.

Lemma rstrip_pad (s b : string) :
  Props.all_space b = true →
  Py.rstrip_with Py.isspace (s +:+ b) = Py.rstrip_with Py.isspace s.
Proof.
  intros Hb. induction s as [|c s IH].
  - rewrite append_nil. apply rstrip_all_space. exact Hb.
  - rewrite append_cons. simpl. rewrite IH. reflexivity.
Qed.

Lemma strip_pad_right (s b : string) :
  Props.all_space b = true → Py.strip (s +:+ b) = Py.strip s.
Proof.
  intros Hb. unfold Py.strip. induction s as [|c s IH].
  - rewrite append_nil, (lstrip_all_space b Hb). reflexivity.
  - rewrite append_cons. simpl. destruct (Py.isspace c); [exact IH|].
    rewrite <- append_cons. apply rstrip_pad. exact Hb.
Qed.

(** White space around a text does not survive [strip]. *)
Lemma strip_pad (a s b : string) :
  Props.all_space a = true → Props.all_space b = true →
  Py.strip (a +:+ s +:+ b) = Py.strip s.
Proof.
  intros Ha Hb. unfold Py.strip. rewrite (lstrip_pad a _ Ha).
  apply strip_pad_right. exact Hb.
Qed.

Lemma normalize_text_str (s : string) :
  normalize_text (PyStr s) = Py.collapse_spaces (Py.strip (Py.lower s)).
Proof. destruct s; reflexivity. Qed.

Lemma remove_char_append (c : ascii) (a b : string) :
  Py.remove_char c (a +:+ b) = Py.remove_char c a +:+ Py.remove_char c b.
Proof.
  induction a as [|d a IH]; [reflexivity|]. rewrite append_cons. simpl.
  destruct (Ascii.eqb c d); [exact IH|]. rewrite IH, append_cons. reflexivity.
Qed.

Lemma remove_char_idem (c : ascii) (s : string) :
  Py.remove_char c (Py.remove_char c s) = Py.remove_char c s.
Proof.
  induction s as [|d s IH]; [reflexivity|]. simpl.
  destruct (Ascii.eqb c d) eqn:Hd; [exact IH|]. simpl. rewrite Hd, IH. reflexivity.
Qed.

Lemma remove_comma_space (a : string) :
  Props.all_space a = true → Py.remove_char "," a = a.
Proof.
  induction a as [|c a IH]; [reflexivity|].
  cbn [Py.remove_char Props.all_space].
  intros [Hc Ha]%andb_true_iff. rewrite (IH Ha).
  destruct (Ascii.eqb_spec "," c) as [<-|Hne]; [discriminate | reflexivity].
Qed.

(** The coercion of a text, the empty one included. *)
Lemma safe_float_str (s : string) :
  safe_float (PyStr s) =
    Ok (Py.float_literal (Py.strip (Py.remove_char "," s))).
Proof. rewrite safe_float_unfold. destruct s; reflexivity. Qed.

End Padding.

(** ** Further properties: statements on the normalizer and the coercer *)

Section TextStatements.
Import Report.

Lemma single_spaced_double (b : bool) (before after : string) :
  Props.single_spaced b (before +:+ "  " +:+ after) = false.
Proof.
  revert b. induction before as [|c before IH]; intros b.
  - rewrite append_nil, !append_cons. cbn [Props.single_spaced].
    change (Py.isspace " ") with true. cbn [negb andb].
    rewrite andb_false_r. reflexivity.
  - rewrite append_cons. cbn [Props.single_spaced]. destruct (Py.isspace c).
    + rewrite IH. apply andb_false_r.
    + apply IH.
Qed.

(** X1: whatever the value, the text [normalize_text] returns is in
    normal form: it is lowercase, neither begins nor ends with white
    space, and its only white space is the single blank, never doubled. *)
Theorem normalize_text_normal_form (text : value) :
  let s := normalize_text text in
  Py.lower s = s
  ∧ Py.strip s = s
  ∧ Props.starts_clean s = true ∧ Props.ends_clean s = true
  ∧ Props.single_spaced false s = true
  ∧ ∀ before after, s ≠ before +:+ "  " +:+ after.
Proof.
  intros s.
  destruct (proj1 (normal_parts s) (normalize_text_is_normal text))
    as (Hstart & Hend & Hsingle & Hlower).
  split; [exact Hlower|]. split.
  { unfold Py.strip. rewrite (lstrip_clean _ Hstart). apply rstrip_clean, Hend. }
  split; [exact Hstart|]. split; [exact Hend|]. split; [exact Hsingle|].
  intros before after Heq. rewrite Heq, single_spaced_double in Hsingle.
  discriminate.
Qed.

(** X2: a text in normal form is left as it is, so that normalizing
    twice is normalizing once. *)
Theorem normalize_text_idempotent (text : value) :
  (∀ s, Props.normal s = true → normalize_text (PyStr s) = s)
  ∧ normalize_text (PyStr (normalize_text text)) = normalize_text text.
Proof.
  split; [exact normal_fixed|].
  apply normal_fixed, normalize_text_is_normal.
Qed.

(** X3: letter case and white space around a text do not count:
    padding a text with white space on either side, or lowering it
    first, gives the same normalized text. *)
Theorem normalize_text_ignores_case_and_padding (a s b : string) :
  Props.all_space a = true → Props.all_space b = true →
  normalize_text (PyStr (a +:+ s +:+ b)) = normalize_text (PyStr s)
  ∧ normalize_text (PyStr (Py.lower s)) = normalize_text (PyStr s).
Proof.
  intros Ha Hb. rewrite !normalize_text_str. split.
  - rewrite !lower_append, (all_space_lower a Ha), (all_space_lower b Hb).
    rewrite (strip_pad a _ b Ha Hb). reflexivity.
  - rewrite lower_idem. reflexivity.
Qed.

Lemma normalize_text_ignores_case_and_padding_witness :
  normalize_text (PyStr ("  " +:+ "Min  LVL" +:+ " ")) = normalize_text (PyStr "Min  LVL")
  ∧ normalize_text (PyStr (Py.lower "Min  LVL")) = normalize_text (PyStr "Min  LVL").
Proof.
  apply (normalize_text_ignores_case_and_padding "  " "Min  LVL" " "); reflexivity.
Defined.

(** X4: thousands separators count nowhere: a text coerces as the same
    text with all its commas removed. *)
Theorem safe_float_ignores_commas (s : string) :
  safe_float (PyStr s) = safe_float (PyStr (Py.remove_char "," s)).
Proof. rewrite !safe_float_str, remove_char_idem. reflexivity. Qed.

(** X5: white space around a cell text does not change its coercion. *)
Theorem safe_float_ignores_padding (a s b : string) :
  Props.all_space a = true → Props.all_space b = true →
  safe_float (PyStr (a +:+ s +:+ b)) = safe_float (PyStr s).
Proof.
  intros Ha Hb. rewrite !safe_float_str, !remove_char_append.
  rewrite (remove_comma_space a Ha), (remove_comma_space b Hb).
  rewrite (strip_pad a _ b Ha Hb). reflexivity.
Qed.

Lemma safe_float_ignores_padding_witness :
  safe_float (PyStr (" " +:+ "1,234.5" +:+ "  ")) = safe_float (PyStr "1,234.5").
Proof.
  apply (safe_float_ignores_padding " " "1,234.5" "  "); reflexivity.
Defined.

End TextStatements.

(** ** Further properties: the column resolver and the header locator *)

Section Resolver.
Local Open Scope nat_scope.
Import Report.

Lemma prefix_refl (s : string) : String.prefix s s = true.
Proof. apply prefix_app. exists EmptyString. rewrite append_nil_r. reflexivity. Qed.

Lemma contains_refl (s : string) : Py.contains s s = true.
Proof. destruct s; cbn [Py.contains]; rewrite prefix_refl; reflexivity. Qed.

(** The equality test of the inner loop adds nothing to the containment
    test. *)
Lemma term_matches_contains (normalized_cell term : string) :
  term_matches normalized_cell term =
    Py.contains (normalize_text (PyStr term)) normalized_cell.
Proof.
  unfold term_matches.
  destruct (String.eqb_spec normalized_cell (normalize_text (PyStr term))) as [->|Hne].
  - rewrite contains_refl. reflexivity.
  - reflexivity.
Qed.

Lemma occurs_in_trans (a b c : string) :
  Spec.occurs_in a b → Spec.occurs_in b c → Spec.occurs_in a c.
Proof.
  intros (x & y & ->) (u & v & ->). exists (u +:+ x), (y +:+ v).
  rewrite !append_assoc. reflexivity.
Qed.

(** Two term lists that accept the same cells resolve alike. *)
Lemma find_from_ext (terms terms' : list string) (header_row : list value) (n : nat) :
  (∀ cell, cell_matches terms cell = cell_matches terms' cell) →
  find_column_index_from n header_row terms =
    find_column_index_from n header_row terms'.
Proof.
  intros Hext. revert n. induction header_row as [|c rest IH]; intros n;
    [reflexivity|].
  simpl. rewrite Hext, IH. reflexivity.
Qed.

(** X6: an index that [find_column_index] returns lies inside the
    header row; on an empty header row, or with no search term, there is
    no match. *)
Theorem find_column_index_in_bounds
    (header_row : list value) (search_terms : list string) :
  (∀ i, find_column_index header_row search_terms = Some i →
        i < length header_row)
  ∧ find_column_index [] search_terms = None
  ∧ find_column_index header_row [] = None.
Proof.
  split; [|split].
  - intros i Hi. unfold find_column_index in Hi.
    apply find_from_Some in Hi as (_ & (cell & Hcell & _) & _).
    apply lookup_lt_Some in Hcell. lia.
  - reflexivity.
  - unfold find_column_index. apply find_from_None. reflexivity.
Qed.

(** X7: a search term that is empty or all white space matches every
    cell, so that with such a term in the list any non-empty header row
    resolves to its first cell. *)
Theorem find_column_index_blank_term
    (cell : value) (rest : list value) (search_terms : list string) (term : string) :
  term ∈ search_terms →
  Props.all_space term = true →
  find_column_index (cell :: rest) search_terms = Some 0.
Proof.
  intros Hin Hblank. unfold find_column_index. cbn [find_column_index_from].
  assert (Hm : cell_matches search_terms cell = true); [|rewrite Hm; reflexivity].
  unfold cell_matches. apply existsb_exists. exists term.
  split; [apply list_elem_of_In; exact Hin|].
  rewrite term_matches_contains, normalize_text_str.
  rewrite (all_space_lower term Hblank).
  assert (Hstrip : Py.strip term = EmptyString).
  { unfold Py.strip. rewrite (lstrip_all_space term Hblank). reflexivity. }
  rewrite Hstrip. destruct (normalize_text cell); reflexivity.
Qed.

Lemma find_column_index_blank_term_witness :
  find_column_index [PyStr "Remarks"; PyStr "UID"] ["uid"; " "] = Some 0.
Proof.
  apply (find_column_index_blank_term (PyStr "Remarks") [PyStr "UID"] ["uid"; " "] " ").
  - right. left.
  - reflexivity.
Defined.

(** X8: a term whose normalized text contains the normalized text of
    another listed term is redundant: the resolver gives the same index
    with it and without it.  In the catalog this is so for "sno." beside
    "sno", and for "min lvl" and "min. lvl" beside "min lv" and
    "min. lv". *)
Theorem find_column_index_redundant_term
    (header_row : list value) (before after : list string) (short long : string) :
  short ∈ before ++ after →
  Spec.occurs_in (normalize_text (PyStr short)) (normalize_text (PyStr long)) →
  find_column_index header_row (before ++ long :: after) =
    find_column_index header_row (before ++ after).
Proof.
  intros Hin Hocc. unfold find_column_index. apply find_from_ext. intros cell.
  unfold cell_matches. rewrite !existsb_app. cbn [existsb].
  destruct (term_matches (normalize_text cell) long) eqn:Hlong;
    [|rewrite orb_false_l; reflexivity].
  rewrite orb_true_l, orb_true_r. symmetry. rewrite <- existsb_app.
  apply existsb_exists. exists short. split; [apply list_elem_of_In; exact Hin|].
  rewrite term_matches_contains in *. apply contains_occurs.
  apply contains_occurs in Hlong. exact (occurs_in_trans _ _ _ Hocc Hlong).
Qed.

Lemma find_column_index_redundant_term_witness :
  find_column_index Example.header (["sno"] ++ "sno." :: []) =
    find_column_index Example.header (["sno"] ++ []).
Proof.
  apply (find_column_index_redundant_term Example.header ["sno"] [] "sno" "sno.").
  - left.
  - apply contains_occurs. reflexivity.
Defined.

End Resolver.

Section Locator.
Local Open Scope nat_scope.
Import Report.

(** The rows that the scan looks at. *)
Lemma find_header_row_scan (data : grid) (max_rows_to_check : Z) :
  let bound := Z.to_nat (Z.min max_rows_to_check (Z.of_nat (length data))) in
  (∃ i row, find_header_row data max_rows_to_check = Ok (i, row)
            ∧ i < bound ∧ data !! i = Some row
            ∧ Spec.is_header_row row = true
            ∧ ∀ j row', j < i → data !! j = Some row' →
                        Spec.is_header_row row' = false)
  ∨ (find_header_row data max_rows_to_check = Raise header_not_found
     ∧ ∀ j row', j < bound → data !! j = Some row' →
                 Spec.is_header_row row' = false).
Proof.
  intros bound.
  assert (Hscan := find_header_row_loop_seq data bound 0 ltac:(unfold bound; lia)).
  replace (find_header_row_loop data (seq 0 bound))
    with (find_header_row data max_rows_to_check) in Hscan
    by (unfold find_header_row, range; fold bound; rewrite Nat.sub_0_r; reflexivity).
  destruct Hscan as [(i & row & Hres & Hi & Hlook & Hhdr & Hlow) | [Hres Hnone]].
  - left. exists i, row. repeat split; auto; try lia.
    intros j row' Hj. apply Hlow. lia.
  - right. split; [exact Hres|]. intros j row' Hj. apply Hnone. lia.
Qed.

(** X9: a header row once found stays found, at the same index, when
    the bound grows and when rows are appended to the grid. *)
Theorem find_header_row_stable
    (data more : grid) (max_rows_to_check larger : Z) (i : nat) (row : list value) :
  find_header_row data max_rows_to_check = Ok (i, row) →
  (max_rows_to_check ≤ larger)%Z →
  find_header_row (data ++ more) larger = Ok (i, row).
Proof.
  intros Hfound Hle.
  destruct (find_header_row_scan data max_rows_to_check)
    as [(i0 & row0 & Hres & Hi & Hlook & Hhdr & Hlow) | [Hres _]];
    [|congruence].
  rewrite Hres in Hfound. injection Hfound as -> ->.
  assert (Hlen := lookup_lt_Some _ _ _ Hlook).
  destruct (find_header_row_scan (data ++ more) larger)
    as [(k & first & Hres' & Hk & Hlook' & Hhdr' & Hlow') | [_ Hnone]].
  - rewrite Hres'. destruct (lt_eq_lt_dec k i) as [[Hlt|Heq]|Hgt].
    + rewrite lookup_app_l in Hlook' by lia.
      rewrite (Hlow k first Hlt Hlook') in Hhdr'. discriminate.
    + subst k. rewrite lookup_app_l in Hlook' by lia. congruence.
    + rewrite (Hlow' i row Hgt) in Hhdr; [discriminate|].
      rewrite lookup_app_l by lia. exact Hlook.
  - rewrite (Hnone i row) in Hhdr; [discriminate | |].
    + rewrite length_app. lia.
    + rewrite lookup_app_l by lia. exact Hlook.
Qed.

Lemma find_header_row_stable_witness :
  find_header_row (Example.sheet ++ [Example.header]) 50 = Ok (2, Example.header).
Proof.
  apply (find_header_row_stable Example.sheet [Example.header] 10 50 2 Example.header).
  - vm_compute. reflexivity.
  - lia.
Defined.

(** X10: the row returned is a non-empty row of the grid, at an index
    below the bound; with an empty grid, or a bound of zero or less, the
    search fails. *)
Theorem find_header_row_range (data : grid) (max_rows_to_check : Z) :
  (∀ i row, find_header_row data max_rows_to_check = Ok (i, row) →
     (Z.of_nat i < max_rows_to_check)%Z ∧ data !! i = Some row ∧ row ≠ [])
  ∧ ((max_rows_to_check ≤ 0)%Z ∨ data = [] →
     find_header_row data max_rows_to_check = Raise header_not_found).
Proof.
  destruct (find_header_row_scan data max_rows_to_check)
    as [(i0 & row0 & Hres & Hi & Hlook & Hhdr & _) | [Hres Hnone]].
  - split.
    + intros i row Hfound. rewrite Hres in Hfound. injection Hfound as <- <-.
      split; [lia|]. split; [exact Hlook|].
      intros ->. discriminate.
    + intros [Hle | ->]; [lia|]. simpl in Hi. lia.
  - split.
    + intros i row Hfound. congruence.
    + intros _. exact Hres.
Qed.

End Locator.

(** ** Further properties: the resolved map, the extractor and the filter *)

Section Rows.
Local Open Scope nat_scope.
Import Report.

(** What a map returned by the resolver holds. *)
Lemma find_all_columns_ok (header_row : list value) (columns : gmap string nat) :
  find_all_columns header_row = Ok columns →
  (∀ d, d ∈ column_definitions →
     ∃ idx, find_column_index header_row (Spec.terms_of d) = Some idx
            ∧ columns !! d.1 = Some idx)
  ∧ Spec.is_column_map columns
  ∧ ∀ key, key ∉ catalog_keys → columns !! key = None.
Proof.
  intros Hok.
  destruct (find_all_columns_loop_ok header_row column_definitions ∅ columns)
    as [Hin Hout]; [exact catalog_keys_nodup | exact Hok |].
  assert (Hres : ∀ d, d ∈ column_definitions →
     ∃ idx, find_column_index header_row (Spec.terms_of d) = Some idx
            ∧ columns !! d.1 = Some idx).
  { intros d Hd. destruct (Hin d Hd) as [[idx Hidx] Heq].
    exists idx. split; congruence. }
  split; [exact Hres|]. split.
  - intros key Hkey. apply row_key_in in Hkey.
    assert (Hcat : key ∈ column_definitions.*1).
    { rewrite column_definitions_keys. unfold catalog_keys.
      rewrite !elem_of_cons, elem_of_nil. tauto. }
    apply list_elem_of_fmap in Hcat as (d & -> & Hd).
    destruct (Hres d Hd) as (idx & _ & Hidx). eauto.
  - intros key Hkey. rewrite (Hout key Hkey). apply lookup_empty.
Qed.

(** X11: every index of a map the resolver returns points at a cell of
    the header row, and the map has no key outside the nine logical
    columns. *)
Theorem find_all_columns_in_bounds
    (header_row : list value) (columns : gmap string nat) (key : string) (idx : nat) :
  find_all_columns header_row = Ok columns →
  columns !! key = Some idx →
  key ∈ catalog_keys ∧ idx < length header_row
  ∧ ∃ cell, header_row !! idx = Some cell.
Proof.
  intros Hok Hkey. destruct (find_all_columns_ok _ _ Hok) as (Hres & _ & Hout).
  destruct (decide (key ∈ catalog_keys)) as [Hin|Hnin];
    [|rewrite (Hout key Hnin) in Hkey; discriminate].
  split; [exact Hin|].
  rewrite <- column_definitions_keys in Hin.
  apply list_elem_of_fmap in Hin as (d & -> & Hd).
  destruct (Hres d Hd) as (i & Hfind & Hi).
  assert (i = idx) as -> by congruence.
  unfold find_column_index in Hfind.
  apply find_from_Some in Hfind as (_ & (cell & Hcell & _) & _).
  replace (idx - 0) with idx in Hcell by lia.
  split; [exact (lookup_lt_Some _ _ _ Hcell) | eauto].
Qed.

Lemma find_all_columns_in_bounds_witness :
  "min_lvl" ∈ catalog_keys ∧ 7 < length Example.header
  ∧ ∃ cell, Example.header !! 7 = Some cell.
Proof.
  apply (find_all_columns_in_bounds Example.header Example.columns "min_lvl" 7);
    vm_compute; reflexivity.
Defined.

Lemma not_None_is_Some {A : Type} (o : option A) : o ≠ None → is_Some o.
Proof. destruct o; [eauto | congruence]. Qed.

Lemma extract_first_missing (columns : gmap string nat) (key : string)
    (row : list value) :
  Props.first_missing columns = Some key →
  extract_row_data row columns = Raise (KeyError key).
Proof.
  - unfold Props.first_missing, row_keys, extract_row_data.
    do 9 (rewrite filter_cons;
      match goal with
      | |- context [decide (columns !! ?k = None)] =>
          let Hd := fresh "Hd" in
          destruct (decide (columns !! k = None)) as [Hd|Hd];
          [ cbn [head]; intros [= <-];
            rewrite (column_cell_missing columns row _ Hd); reflexivity
          | rewrite (column_cell_field columns row _ (not_None_is_Some _ Hd)),
              bind_ok ]
      end).
    discriminate.
Qed.

(** X12: when the column map lacks a key of the row record, the
    extractor raises [KeyError] for the first key it lacks, in the order
    of the record; it lacks none exactly when it is a column map. *)
Theorem extract_row_data_missing_key (columns : gmap string nat) :
  (∀ key row, Props.first_missing columns = Some key →
     extract_row_data row columns = Raise (KeyError key))
  ∧ (Props.first_missing columns = None ↔ Spec.is_column_map columns).
Proof.
  split; [intros key row; apply extract_first_missing|].
  - unfold Props.first_missing. split.
    + intros Hhead key Hkey.
      apply not_None_is_Some. intros Hnone.
      assert (Hin : key ∈ filter (λ key, columns !! key = None) row_keys)
        by (apply list_elem_of_filter; auto).
      destruct (filter (λ key, columns !! key = None) row_keys);
        [inversion Hin | discriminate].
    + intros Hmap.
      destruct (filter (λ key, columns !! key = None) row_keys) as [|key l] eqn:Hf;
        [reflexivity|].
      assert (Hin : key ∈ filter (λ key, columns !! key = None) row_keys)
        by (rewrite Hf; left).
      apply list_elem_of_filter in Hin as [Hnone Hkey].
      destruct (Hmap key Hkey) as [idx Hidx]. congruence.
Qed.

(** A map without the group column: the error names group. *)
Lemma extract_row_data_missing_key_witness :
  extract_row_data Example.low_row (delete "group" Example.columns) =
    Raise (KeyError "group").
Proof.
  destruct (extract_row_data_missing_key (delete "group" Example.columns)) as [H _].
  apply H. vm_compute. reflexivity.
Defined.

(** The rows from index [a] on, read one index at a time. *)
Lemma rows_of_range (data : grid) (n a : nat) :
  a + n = length data →
  map (Spec.row_at data) (seq a n) = drop a data.
Proof.
  revert a. induction n as [|n IH]; intros a Hlen.
  - simpl. rewrite drop_ge by lia. reflexivity.
  - destruct (lookup_lt_is_Some_2 data a ltac:(lia)) as [row Hrow].
    cbn [seq map]. rewrite IH by lia. rewrite (drop_S _ _ _ Hrow).
    unfold Spec.row_at. rewrite Hrow. reflexivity.
Qed.

Lemma rows_after (data : grid) (header_row_idx : nat) :
  map (Spec.row_at data) (range (header_row_idx + 1) (length data)) =
    drop (header_row_idx + 1) data.
Proof.
  unfold range. destruct (decide (header_row_idx + 1 ≤ length data)) as [Hle|Hgt].
  - apply rows_of_range. lia.
  - replace (length data - (header_row_idx + 1)) with 0 by lia.
    rewrite drop_ge by lia. reflexivity.
Qed.

Lemma map_filter_rows {A B C : Type} (g : A → B) (f : B → C) (p : B → bool)
    (l : list A) :
  map (λ i, f (g i)) (filter (λ i, p (g i) = true) l) =
    map f (filter (λ x, p x = true) (map g l)).
Proof.
  induction l as [|x l IH]; [reflexivity|].
  cbn [map]. rewrite !filter_cons. destruct (decide (p (g x) = true)).
  - cbn [map]. rewrite IH. reflexivity.
  - exact IH.
Qed.

(** The filter as a function of the rows after the header. *)
Lemma filter_rows_after (data : grid) (header_row_idx : nat)
    (columns : gmap string nat) :
  Spec.is_column_map columns →
  filter_replenishment_items data header_row_idx columns =
    Ok (map (Spec.item_of columns)
            (filter (λ row, Spec.qualifies columns row = true)
                    (drop (header_row_idx + 1) data))).
Proof.
  intros Hcols. rewrite (filter_selected data columns Hcols).
  unfold Spec.selected.
  rewrite (map_filter_rows (Spec.row_at data) (Spec.item_of columns)
             (Spec.qualifies columns)).
  rewrite rows_after. reflexivity.
Qed.

(** X13: the items depend on the rows after the header row only: they
    are the items of those of these rows that qualify, so there are no
    more items than such rows, and none when the header row is the last
    row or lies beyond the grid. *)
Theorem filter_replenishment_items_rows_after
    (data : grid) (header_row_idx : nat) (columns : gmap string nat) :
  Spec.is_column_map columns →
  ∃ items,
    filter_replenishment_items data header_row_idx columns = Ok items
    ∧ items = map (Spec.item_of columns)
                  (filter (λ row, Spec.qualifies columns row = true)
                          (drop (header_row_idx + 1) data))
    ∧ length items ≤ length data - (header_row_idx + 1)
    ∧ (length data ≤ header_row_idx + 1 → items = [])
    ∧ ∀ other : grid,
        drop (header_row_idx + 1) other = drop (header_row_idx + 1) data →
        filter_replenishment_items other header_row_idx columns = Ok items.
Proof.
  intros Hcols. eexists. split; [apply filter_rows_after; exact Hcols|].
  split; [reflexivity|]. split; [|split].
  - rewrite length_map.
    etransitivity; [apply length_filter|]. rewrite length_drop. lia.
  - intros Hlen. rewrite drop_ge by lia. reflexivity.
  - intros other Hsame. rewrite (filter_rows_after other _ _ Hcols), Hsame.
    reflexivity.
Qed.

Lemma filter_replenishment_items_rows_after_witness :
  ∃ items,
    filter_replenishment_items Example.sheet 2 Example.columns = Ok items
    ∧ length items ≤ length Example.sheet - (2 + 1).
Proof.
  destruct (filter_replenishment_items_rows_after Example.sheet 2 Example.columns
              example_columns_ok) as (items & Hok & _ & Hlen & _).
  exists items. split; [exact Hok | exact Hlen].
Defined.

(** X14: rows appended to a grid that holds its header row add their
    items after those already there, and change none. *)
Theorem filter_replenishment_items_append
    (data more : grid) (header_row_idx : nat) (columns : gmap string nat) :
  Spec.is_column_map columns →
  header_row_idx < length data →
  ∃ items added,
    filter_replenishment_items data header_row_idx columns = Ok items
    ∧ added = map (Spec.item_of columns)
                  (filter (λ row, Spec.qualifies columns row = true) more)
    ∧ filter_replenishment_items (data ++ more) header_row_idx columns =
        Ok (items ++ added).
Proof.
  intros Hcols Hlen. eexists _, _.
  split; [apply filter_rows_after; exact Hcols|]. split; [reflexivity|].
  rewrite (filter_rows_after _ _ _ Hcols).
  rewrite drop_app_le by lia. rewrite filter_app, map_app. reflexivity.
Qed.

Lemma filter_replenishment_items_append_witness :
  ∃ items added,
    filter_replenishment_items Example.sheet 2 Example.columns = Ok items
    ∧ filter_replenishment_items (Example.sheet ++ [Example.low_row]) 2
        Example.columns = Ok (items ++ added).
Proof.
  destruct (filter_replenishment_items_append Example.sheet [Example.low_row] 2
              Example.columns example_columns_ok) as (items & added & H1 & _ & H2).
  - vm_compute. lia.
  - exists items, added. split; [exact H1 | exact H2].
Defined.

Lemma forallb_map_rows {A B : Type} (g : A → B) (p : B → bool) (l : list A) :
  forallb p (map g l) = forallb (λ i, p (g i)) l.
Proof. induction l as [|x l IH]; [reflexivity|]. simpl. rewrite IH. reflexivity. Qed.

(** With a key missing, the loop fails at the first row that is not blank. *)
Lemma filter_loop_missing_key (data : grid) (columns : gmap string nat)
    (key : string) (indices : list nat) (items : list (gmap string value)) :
  Props.first_missing columns = Some key →
  (∀ i, i ∈ indices → i < length data) →
  filter_loop data columns indices items =
    if forallb (λ i, is_blank_row (Spec.row_at data i)) indices
    then Ok items else Raise (KeyError key).
Proof.
  intros Hkey. induction indices as [|i rest IH]; intros Hin; [reflexivity|].
  destruct (lookup_lt_is_Some_2 data i (Hin i ltac:(left))) as [row Hrow].
  assert (Hat : Spec.row_at data i = row)
    by (unfold Spec.row_at; rewrite Hrow; reflexivity).
  cbn [filter_loop forallb]. rewrite Hat. unfold list_getitem.
  rewrite Hrow, bind_ok. destruct (is_blank_row row).
  - apply IH. intros j Hj. apply Hin. right. exact Hj.
  - rewrite (extract_first_missing columns key row Hkey). reflexivity.
Qed.

(** X15: with a column map that lacks a key, the filter still returns
    the empty list when every row after the header row is blank, and
    raises [KeyError] for the first missing key as soon as one of them is
    not. *)
Theorem filter_replenishment_items_missing_key
    (data : grid) (header_row_idx : nat) (columns : gmap string nat) (key : string) :
  Props.first_missing columns = Some key →
  filter_replenishment_items data header_row_idx columns =
    if forallb is_blank_row (drop (header_row_idx + 1) data)
    then Ok [] else Raise (KeyError key).
Proof.
  intros Hkey. unfold filter_replenishment_items.
  rewrite (filter_loop_missing_key data columns key _ _ Hkey).
  - rewrite <- rows_after, forallb_map_rows. reflexivity.
  - intros i Hi. apply range_bounds in Hi. lia.
Qed.

Lemma filter_replenishment_items_missing_key_witness :
  filter_replenishment_items Example.sheet 2 (delete "group" Example.columns) =
    Raise (KeyError "group")
  ∧ filter_replenishment_items [Example.header; []; [PyNone]] 0
      (delete "group" Example.columns) = Ok [].
Proof.
  split.
  - rewrite (filter_replenishment_items_missing_key Example.sheet 2
               (delete "group" Example.columns) "group"); vm_compute; reflexivity.
  - rewrite (filter_replenishment_items_missing_key [Example.header; []; [PyNone]] 0
               (delete "group" Example.columns) "group"); vm_compute; reflexivity.
Defined.



End Rows.

(** ** Further properties: the export *)

Section CsvExport.
Local Open Scope nat_scope.
Import Report.

Lemma dict_to_list_known (item : gmap string value) :
  Props.known_fields item →
  dict_to_list item =
    Ok (map (λ key, default (PyStr EmptyString) (item !! key)) csv_headers).
Proof.
  intros Hknown. unfold dict_to_list.
  assert (Hempty : dom item ∖ list_to_set csv_headers = (∅ : gset string)).
  { apply leibniz_equiv. intros x. split.
    - intros [Hx Hn]%elem_of_difference. exfalso. apply Hn, Hknown, Hx.
    - intros Hx. apply elem_of_empty in Hx. destruct Hx. }
  rewrite Hempty, elements_empty. reflexivity.
Qed.

Lemma dict_to_list_unknown (item : gmap string value) :
  ¬ Props.known_fields item →
  ∃ names, dict_to_list item =
    Raise (ValueError ("dict contains fields not in fieldnames: " +:+ names)).
Proof.
  intros Hunknown. unfold dict_to_list.
  destruct (elements (dom item ∖ list_to_set csv_headers : gset string))
    as [|x l] eqn:Hel.
  - exfalso. apply Hunknown. unfold Props.known_fields.
    apply elements_empty_inv in Hel. intros x Hx.
    destruct (decide (x ∈ (list_to_set csv_headers : gset string))) as [Hin|Hn];
      [exact Hin|].
    exfalso. apply (not_elem_of_empty (C:=gset string) x). rewrite <- Hel.
    apply elem_of_difference. split; assumption.
  - eexists. reflexivity.
Qed.

Lemma writerows_known (items : list (gmap string value)) (written : string) :
  Forall Props.known_fields items →
  writerows items written = (written +:+ Props.item_lines items, Ok tt).
Proof.
  intros Hall. revert written.
  induction Hall as [|item items Hitem _ IH]; intros written.
  - simpl. rewrite append_nil_r. reflexivity.
  - cbn [writerows Props.item_lines foldr].
    rewrite (dict_to_list_known item Hitem), IH, append_assoc. reflexivity.
Qed.

Lemma writerows_unknown (good rest : list (gmap string value))
    (bad : gmap string value) (written : string) :
  Forall Props.known_fields good → ¬ Props.known_fields bad →
  ∃ names, writerows (good ++ bad :: rest) written =
    (written +:+ Props.item_lines good,
     Raise (ValueError ("dict contains fields not in fieldnames: " +:+ names))).
Proof.
  intros Hgood Hbad. revert written.
  induction Hgood as [|item good Hitem _ IH]; intros written.
  - destruct (dict_to_list_unknown bad Hbad) as [names Hnames].
    exists names. cbn [app writerows]. rewrite Hnames. simpl.
    rewrite append_nil_r. reflexivity.
  - destruct (IH (written +:+ csv_line
        (map (λ key, default (PyStr EmptyString) (item !! key)) csv_headers)))
      as [names Hnames].
    exists names. cbn [app writerows Props.item_lines foldr].
    rewrite (dict_to_list_known item Hitem), Hnames, append_assoc. reflexivity.
Qed.

Lemma item_of_known (columns : gmap string nat) (row : list value) :
  Props.known_fields (Spec.item_of columns row).
Proof.
  unfold Props.known_fields, Spec.item_of.
  generalize (Spec.field row columns "sno") (Spec.field row columns "uid")
    (Spec.field row columns "bush") (Spec.field row columns "group")
    (Spec.field row columns "last_io_raised")
    (Spec.field row columns "category")
    (Spec.field row columns "stock_location").
  intros sno uid bush group last_io category location.
  assert (Heq : dom (list_to_map
        [("Sno.", sno); ("UID", uid); ("Bush", bush); ("Group", group);
         ("Last I.O Raised", last_io); ("Category", category);
         ("Stock Location", location)] : gmap string value)
      = list_to_set csv_headers) by reflexivity.
  rewrite Heq. reflexivity.
Qed.

Lemma item_lines_of_rows (columns : gmap string nat) (rows : list (list value)) :
  Props.item_lines (map (Spec.item_of columns) rows) =
    String.concat EmptyString (map (Props.item_line columns) rows).
Proof.
  assert (Hline : ∀ row,
    csv_line (map (λ key, default (PyStr EmptyString)
                            (Spec.item_of columns row !! key)) csv_headers)
    = Props.item_line columns row).
  { intros row. unfold Props.item_line, Spec.item_of.
    generalize (Spec.field row columns "sno") (Spec.field row columns "uid")
      (Spec.field row columns "bush") (Spec.field row columns "group")
      (Spec.field row columns "last_io_raised")
      (Spec.field row columns "category")
      (Spec.field row columns "stock_location").
    intros sno uid bush group last_io category location. reflexivity. }
  induction rows as [|row rows IH]; [reflexivity|].
  cbn [map Props.item_lines foldr]. fold (Props.item_lines (map (Spec.item_of columns) rows)).
  rewrite Hline, IH. destruct rows as [|row' rows]; [|reflexivity].
  simpl. rewrite append_nil_r. reflexivity.
Qed.

(** X17: for items whose keys are all field names of the export, and a
    file that opens, the export succeeds and the file holds the header
    line followed by one line for each item, in their order, a missing
    field being written empty. *)
Theorem save_to_csv_known_fields
    (item : gmap string value) (items : list (gmap string value))
    (filename : string) (w : world) :
  Forall Props.known_fields (item :: items) →
  open_error w filename = None →
  (save_to_csv (item :: items) filename w).2 = Ok tt
  ∧ files (save_to_csv (item :: items) filename w).1 !! filename =
      Some (csv_line (map PyStr csv_headers) +:+ Props.item_lines (item :: items))
  ∧ stdout (save_to_csv (item :: items) filename w).1 =
      stdout w ++ [nl +:+ check_mark +:+ " Results saved to: " +:+ filename].
Proof.
  intros Hknown Hopen. unfold save_to_csv. rewrite Hopen.
  rewrite (writerows_known _ _ Hknown). cbn [fst snd print write_file files stdout].
  split; [reflexivity|]. split; [apply lookup_insert_eq | reflexivity].
Qed.

Lemma save_to_csv_known_fields_witness :
  (save_to_csv [Spec.item_of Example.columns Example.low_row] OUTPUT_CSV
     Example.empty_world).2 = Ok tt.
Proof.
  apply (save_to_csv_known_fields (Spec.item_of Example.columns Example.low_row) []
           OUTPUT_CSV Example.empty_world).
  - constructor; [apply item_of_known | constructor].
  - reflexivity.
Defined.

(** X18: the export touches no file but the one it is given, whatever
    the items; and when that file cannot be opened it raises
    [RuntimeError] with the text of the failure, leaving every file and
    the printed lines as they were. *)
Theorem save_to_csv_frame
    (items : list (gmap string value)) (filename : string) (w : world) :
  (∀ other, other ≠ filename →
     files (save_to_csv items filename w).1 !! other = files w !! other)
  ∧ (∀ msg, items ≠ [] → open_error w filename = Some msg →
       save_to_csv items filename w =
         (w, Raise (RuntimeError ("Failed to save CSV file: " +:+ msg)))).
Proof.
  split.
  - intros other Hother. unfold save_to_csv. destruct items as [|item items];
      [reflexivity|].
    destruct (open_error w filename); [reflexivity|].
    destruct (writerows (item :: items) (csv_line (map PyStr csv_headers)))
      as [written [[]|e]]; cbn [fst print write_file files];
      apply lookup_insert_ne; congruence.
  - intros msg Hne Hopen. unfold save_to_csv. destruct items; [congruence|].
    rewrite Hopen. reflexivity.
Qed.

(** X19: an item with a key that is no field name stops the export
    with [RuntimeError]; the file has been created all the same, with the
    header line and the lines of the items before it. *)
Theorem save_to_csv_unknown_field
    (good rest : list (gmap string value)) (bad : gmap string value)
    (filename : string) (w : world) :
  Forall Props.known_fields good →
  ¬ Props.known_fields bad →
  open_error w filename = None →
  (∃ names, (save_to_csv (good ++ bad :: rest) filename w).2 =
     Raise (RuntimeError
              ("Failed to save CSV file: "
               +:+ "dict contains fields not in fieldnames: " +:+ names)))
  ∧ files (save_to_csv (good ++ bad :: rest) filename w).1 !! filename =
      Some (csv_line (map PyStr csv_headers) +:+ Props.item_lines good)
  ∧ stdout (save_to_csv (good ++ bad :: rest) filename w).1 = stdout w.
Proof.
  intros Hgood Hbad Hopen.
  destruct (writerows_unknown good rest bad (csv_line (map PyStr csv_headers))
              Hgood Hbad) as [names Hnames].
  unfold save_to_csv. rewrite Hopen, Hnames.
  destruct (good ++ bad :: rest) eqn:Hlist;
    [destruct good; discriminate|].
  cbn [fst snd print write_file files stdout exn_text].
  split; [exists names; reflexivity|]. split; [apply lookup_insert_eq | reflexivity].
Qed.

(** An item with the balance under a key of its own, after a good one. *)
Lemma save_to_csv_unknown_field_witness :
  files (save_to_csv
           ([Spec.item_of Example.columns Example.low_row]
            ++ <["Opn Bal" := PyStr "5"]> (Spec.item_of Example.columns Example.last_row)
            :: [])
           OUTPUT_CSV Example.empty_world).1 !! OUTPUT_CSV =
    Some (csv_line (map PyStr csv_headers)
          +:+ Props.item_lines [Spec.item_of Example.columns Example.low_row]).
Proof.
  apply (save_to_csv_unknown_field
           [Spec.item_of Example.columns Example.low_row] []
           (<["Opn Bal" := PyStr "5"]> (Spec.item_of Example.columns Example.last_row))
           OUTPUT_CSV Example.empty_world).
  - constructor; [apply item_of_known | constructor].
  - unfold Props.known_fields. intros Hsub.
    assert (Hin : "Opn Bal" ∈ (list_to_set csv_headers : gset string)).
    { apply Hsub. apply elem_of_dom. rewrite lookup_insert_eq. eauto. }
    vm_compute in Hin. set_solver.
  - reflexivity.
Defined.

(** X20: with a map the resolver has returned, neither the filter nor
    the export of its items fails, but for the opening of the file: for
    any grid and header index the filter returns items, all with the
    seven field names, and [save_to_csv] on them succeeds when the file
    opens; it then holds the header line and the lines of the rows that
    qualify. *)
Theorem filter_and_save_after_resolution
    (header_row : list value) (columns : gmap string nat)
    (data : grid) (header_row_idx : nat) (filename : string) (w : world) :
  find_all_columns header_row = Ok columns →
  ∃ items,
    filter_replenishment_items data header_row_idx columns = Ok items
    ∧ Forall Props.known_fields items
    ∧ (open_error w filename = None →
       (save_to_csv items filename w).2 = Ok tt
       ∧ (items ≠ [] →
          files (save_to_csv items filename w).1 !! filename =
            Some (csv_line (map PyStr csv_headers)
                  +:+ String.concat EmptyString
                        (map (Props.item_line columns)
                             (filter (λ row, Spec.qualifies columns row = true)
                                     (drop (header_row_idx + 1) data)))))).
Proof.
  intros Hres. destruct (find_all_columns_ok _ _ Hres) as (_ & Hcols & _).
  eexists. split; [apply filter_rows_after; exact Hcols|].
  assert (Hknown : Forall Props.known_fields
            (map (Spec.item_of columns)
                 (filter (λ row, Spec.qualifies columns row = true)
                         (drop (header_row_idx + 1) data)))).
  { apply Forall_forall. intros item Hitem.
    apply list_elem_of_fmap in Hitem as (row & -> & _). apply item_of_known. }
  split; [exact Hknown|]. intros Hopen.
  destruct (map (Spec.item_of columns)
                (filter (λ row, Spec.qualifies columns row = true)
                        (drop (header_row_idx + 1) data)))
    as [|item items] eqn:Hitems.
  - split; [reflexivity | congruence].
  - unfold save_to_csv. rewrite Hopen, (writerows_known _ _ Hknown).
    cbn [fst snd print write_file files].
    split; [reflexivity|]. intros _. rewrite lookup_insert_eq.
    rewrite <- Hitems, item_lines_of_rows. reflexivity.
Qed.

Lemma filter_and_save_after_resolution_witness :
  ∃ items,
    filter_replenishment_items Example.sheet 2 Example.columns = Ok items
    ∧ (save_to_csv items OUTPUT_CSV Example.empty_world).2 = Ok tt.
Proof.
  destruct (filter_and_save_after_resolution Example.header Example.columns Example.sheet 2
              OUTPUT_CSV Example.empty_world) as (items & Hok & _ & Hsave).
  - vm_compute. reflexivity.
  - exists items. split; [exact Hok|]. apply Hsave. reflexivity.
Defined.

End CsvExport.

(** ** Further properties: the order of the columns *)

Section ColumnOrder.
Local Open Scope nat_scope.
Import Report.

(** A standard title is matched by the terms of its own column only. *)
Lemma title_matches_own_column (d : string * list (list string))
    (kt : string * string) :
  d ∈ column_definitions → kt ∈ Props.titled_catalog →
  cell_matches (Spec.terms_of d) (PyStr kt.2) = true ↔ d.1 = kt.1.
Proof.
  intros Hd Hkt.
  assert (Hcheck :
    forallb (λ d, forallb (λ kt : string * string,
        Bool.eqb (cell_matches (Spec.terms_of d) (PyStr kt.2))
                 (String.eqb d.1 kt.1))
      Props.titled_catalog) column_definitions = true)
    by (vm_compute; reflexivity).
  rewrite forallb_forall in Hcheck.
  specialize (Hcheck d (proj1 (list_elem_of_In _ _) Hd)).
  rewrite forallb_forall in Hcheck.
  specialize (Hcheck kt (proj1 (list_elem_of_In _ _) Hkt)).
  apply Bool.eqb_prop in Hcheck. rewrite Hcheck. apply String.eqb_eq.
Qed.

Lemma titled_catalog_keys : Props.titled_catalog.*1 = column_definitions.*1.
Proof. reflexivity. Qed.

Lemma titled_catalog_header :
  Example.header = map (λ kt : string * string, PyStr kt.2) Props.titled_catalog.
Proof. reflexivity. Qed.

Lemma titled_catalog_functional (key title title' : string) :
  (key, title) ∈ Props.titled_catalog → (key, title') ∈ Props.titled_catalog →
  title = title'.
Proof.
  assert (Hnd : NoDup Props.titled_catalog.*1)
    by (rewrite titled_catalog_keys; exact catalog_keys_nodup).
  intros H1 H2.
  apply (elem_of_list_to_map (M:=gmap string) _ _ _ Hnd) in H1.
  apply (elem_of_list_to_map (M:=gmap string) _ _ _ Hnd) in H2.
  congruence.
Qed.

(** X21: the order of the columns in the sheet does not matter: on any
    rearrangement of the nine standard titles every logical column
    resolves, and to the index of the cell with its own title. *)
Theorem find_all_columns_any_order (header_row : list value) :
  header_row ≡ₚ Example.header →
  ∃ columns,
    find_all_columns header_row = Ok columns
    ∧ ∀ key title, (key, title) ∈ Props.titled_catalog →
        ∃ idx, columns !! key = Some idx
               ∧ header_row !! idx = Some (PyStr title).
Proof.
  intros Hperm.
  assert (Hall : Forall (Spec.resolves header_row) column_definitions).
  { apply Forall_forall. intros d Hd.
    assert (Hkey : d.1 ∈ Props.titled_catalog.*1)
      by (rewrite titled_catalog_keys; apply list_elem_of_fmap; eauto).
    apply list_elem_of_fmap in Hkey as (kt & Hkt1 & Hkt).
    assert (Hcell : PyStr kt.2 ∈ header_row).
    { rewrite Hperm, titled_catalog_header.
      apply (list_elem_of_fmap_2 (λ kt : string * string, PyStr kt.2)). exact Hkt. }
    assert (Hm := proj2 (title_matches_own_column d kt Hd Hkt) Hkt1).
    unfold Spec.resolves.
    destruct (find_column_index header_row (Spec.terms_of d)) as [idx|] eqn:Hfind;
      [eauto|].
    unfold find_column_index in Hfind. rewrite find_from_None in Hfind.
    rewrite (Hfind _ Hcell) in Hm. discriminate. }
  destruct (find_all_columns_loop_total header_row column_definitions ∅ Hall)
    as [columns Hok].
  exists columns. split; [exact Hok|].
  intros key title Hkt.
  destruct (find_all_columns_ok header_row columns Hok) as (Hres & _ & _).
  assert (Hkey : key ∈ column_definitions.*1).
  { rewrite <- titled_catalog_keys.
    apply (list_elem_of_fmap_2 fst) in Hkt. exact Hkt. }
  apply list_elem_of_fmap in Hkey as (d & -> & Hd).
  destruct (Hres d Hd) as (idx & Hfind & Hidx).
  exists idx. split; [exact Hidx|].
  unfold find_column_index in Hfind.
  apply find_from_Some in Hfind as (_ & (cell & Hcell & Hm) & _).
  replace (idx - 0) with idx in Hcell by lia. rewrite Hcell. f_equal.
  assert (Hin : cell ∈ Example.header).
  { rewrite <- Hperm. apply list_elem_of_lookup. eauto. }
  rewrite titled_catalog_header in Hin.
  apply list_elem_of_fmap in Hin as (kt & -> & Hkt').
  f_equal.
  assert (Hown := proj1 (title_matches_own_column d kt Hd Hkt') Hm).
  destruct kt as [key' title']. simpl in *.
  rewrite <- Hown in Hkt'.
  exact (titled_catalog_functional _ _ _ Hkt' Hkt).
Qed.

(** The standard titles from right to left: the balance is at index 0. *)
Lemma find_all_columns_any_order_witness :
  ∃ columns,
    find_all_columns (reverse Example.header) = Ok columns
    ∧ ∃ idx, columns !! "opn_bal" = Some idx
             ∧ reverse Example.header !! idx = Some (PyStr "Opn Bal").
Proof.
  destruct (find_all_columns_any_order (reverse Example.header)
              (reverse_Permutation Example.header)) as (columns & Hok & Hat).
  exists columns. split; [exact Hok|].
  apply (Hat "opn_bal" "Opn Bal"). unfold Props.titled_catalog.
  rewrite !elem_of_cons. tauto.
Defined.

End ColumnOrder.

(** ** Further properties: the locator and the resolver together *)

Section LocatorResolver.
Local Open Scope nat_scope.
Import Report.

(** After a character that is not white, a word read off the collapsed
    text is read off the text itself. *)
Lemma prefix_collapse (w s : string) :
  Props.no_space w = true →
  String.prefix w (Py.collapse_from false s) = true → String.prefix w s = true.
Proof.
  revert s. induction w as [|a w IH]; intros s Hw; [destruct s; reflexivity|].
  cbn [Props.no_space] in Hw. apply andb_true_iff in Hw as [Ha Hw].
  apply negb_true_iff in Ha.
  destruct s as [|c s]; [simpl; discriminate|].
  cbn [Py.collapse_from]. destruct (Py.isspace c) eqn:Hc.
  - simpl. destruct (ascii_dec a " ") as [->|_]; [discriminate Ha | discriminate].
  - simpl. destruct (ascii_dec a c) as [_|_]; [|discriminate]. apply IH. exact Hw.
Qed.

Lemma contains_collapse (w : string) (b : bool) (s : string) :
  Props.no_space w = true → w ≠ EmptyString →
  Py.contains w (Py.collapse_from b s) = true → Py.contains w s = true.
Proof.
  intros Hw Hne. revert b. induction s as [|c s IH]; intros b; [auto|].
  cbn [Py.collapse_from]. destruct (Py.isspace c) eqn:Hc.
  - assert (Hrest : Py.contains w (Py.collapse_from true s) = true →
                    Py.contains w (String c s) = true).
    { intros H. cbn [Py.contains]. rewrite (IH true H). apply orb_true_r. }
    destruct b; [exact Hrest|].
    cbn [Py.contains]. intros [Hp|H]%orb_true_iff; [|exact (Hrest H)].
    destruct w as [|a w]; [congruence|]. cbn [Props.no_space] in Hw.
    apply andb_true_iff in Hw as [Ha _]. apply negb_true_iff in Ha.
    simpl in Hp. destruct (ascii_dec a " ") as [->|_]; [discriminate Ha | discriminate].
  - cbn [Py.contains]. intros [Hp|H]%orb_true_iff.
    + apply orb_true_iff. left. apply prefix_collapse; [exact Hw|].
      cbn [Py.collapse_from]. rewrite Hc. exact Hp.
    + rewrite (IH false H). apply orb_true_r.
Qed.

Lemma lstrip_suffix (x : string) :
  ∃ a, x = a +:+ Py.lstrip_with Py.isspace x.
Proof.
  induction x as [|c x [a IH]]; [exists EmptyString; reflexivity|].
  simpl. destruct (Py.isspace c).
  - exists (String c a). rewrite append_cons, <- IH. reflexivity.
  - exists EmptyString. reflexivity.
Qed.

Lemma rstrip_prefix (y : string) :
  ∃ b, y = Py.rstrip_with Py.isspace y +:+ b.
Proof.
  induction y as [|c y [b IH]]; [exists EmptyString; reflexivity|].
  simpl. destruct (Py.rstrip_with Py.isspace y) as [|d r].
  - rewrite append_nil in IH. destruct (Py.isspace c).
    + exists (String c y). reflexivity.
    + exists y. reflexivity.
  - exists b. rewrite append_cons, <- IH. reflexivity.
Qed.

Lemma occurs_in_strip (w x : string) :
  Spec.occurs_in w (Py.strip x) → Spec.occurs_in w x.
Proof.
  unfold Py.strip. intros (u & v & Heq).
  destruct (lstrip_suffix x) as [a Ha].
  destruct (rstrip_prefix (Py.lstrip_with Py.isspace x)) as [b Hb].
  exists (a +:+ u), (v +:+ b). rewrite Ha at 1. rewrite Hb at 1. rewrite Heq.
  rewrite !append_assoc. reflexivity.
Qed.

Lemma occurs_in_lower (a b : string) :
  Spec.occurs_in a b → Spec.occurs_in (Py.lower a) (Py.lower b).
Proof.
  intros (u & v & ->). exists (Py.lower u), (Py.lower v).
  rewrite !lower_append. reflexivity.
Qed.

Lemma occurs_in_join (cell : value) (row : list value) :
  cell ∈ row → Spec.occurs_in (Py.str cell) (Py.join " " (map Py.str row)).
Proof.
  unfold Py.join. induction row as [|c row IH]; intros Hin; [inversion Hin|].
  destruct row as [|d row].
  - apply list_elem_of_singleton in Hin as ->. apply occurs_in_refl.
  - cbn [map String.concat]. apply elem_of_cons in Hin as [->|Hin].
    + apply occurs_in_head.
    + do 2 apply occurs_in_append. apply IH. exact Hin.
Qed.

(** A word without white space found in the normalized text of a cell is
    found in the text of the row. *)
Lemma contains_row_text (w : string) (cell : value) (row : list value) :
  Props.no_space w = true → w ≠ EmptyString → cell ∈ row →
  Py.contains w (normalize_text cell) = true →
  Py.contains w (row_text row) = true.
Proof.
  intros Hw Hne Hin. unfold normalize_text.
  destruct (negb (Py.truthy cell)).
  { destruct w; [congruence | simpl; discriminate]. }
  intros H. apply (contains_collapse w false _ Hw Hne) in H.
  apply contains_occurs in H. apply occurs_in_strip in H.
  apply contains_occurs. unfold row_text.
  exact (occurs_in_trans _ _ _ H (occurs_in_lower _ _ (occurs_in_join _ _ Hin))).
Qed.

(** A cell matched by a term list, all of whose terms hold the word. *)
Lemma matched_cell_holds (w : string) (terms : list string)
    (header_row : list value) (idx : nat) :
  Props.no_space w = true → w ≠ EmptyString →
  Forall (λ term, Spec.occurs_in w (normalize_text (PyStr term))) terms →
  find_column_index header_row terms = Some idx →
  Py.contains w (row_text header_row) = true.
Proof.
  intros Hw Hne Hterms Hfind. unfold find_column_index in Hfind.
  apply find_from_Some in Hfind as (_ & (cell & Hcell & Hm) & _).
  apply cell_matches_term in Hm as (term & Hterm & Hmatch).
  rewrite Forall_forall in Hterms. specialize (Hterms term Hterm).
  apply (contains_row_text w cell); [exact Hw | exact Hne | |].
  - apply list_elem_of_lookup. eauto.
  - apply contains_occurs. destruct Hmatch as [-> | Hocc]; [exact Hterms|].
    exact (occurs_in_trans _ _ _ Hterms Hocc).
Qed.

Lemma resolved_row_is_header (row : list value) (columns : gmap string nat) :
  find_all_columns row = Ok columns → Spec.is_header_row row = true.
Proof.
  intros Hok. destruct (find_all_columns_ok row columns Hok) as (Hres & _ & _).
  destruct (Hres ("sno", [["sno"; "sno."]])) as (i & Hsno & _);
    [unfold column_definitions; rewrite !elem_of_cons; tauto|].
  destruct (Hres ("uid", [["uid"]])) as (j & Huid & _);
    [unfold column_definitions; rewrite !elem_of_cons; tauto|].
  assert (H1 : Py.contains "sno" (row_text row) = true).
  { apply (matched_cell_holds "sno" _ _ _ eq_refl ltac:(discriminate)) in Hsno;
      [exact Hsno|].
    repeat constructor; apply contains_occurs; reflexivity. }
  assert (H2 : Py.contains "uid" (row_text row) = true).
  { apply (matched_cell_holds "uid" _ _ _ eq_refl ltac:(discriminate)) in Huid;
      [exact Huid|].
    repeat constructor; apply contains_occurs; reflexivity. }
  unfold Spec.is_header_row, is_header_text. rewrite H1, H2.
  destruct row; [discriminate Hsno | reflexivity].
Qed.

(** X22: the header test is no obstacle to a row the resolver accepts:
    a row on which all nine columns resolve passes the test of the
    locator, so when such a row lies within the bound the locator finds a
    header row, at that index or before it. *)
Theorem find_header_row_accepts_resolved
    (data : grid) (max_rows_to_check : Z) (i : nat) (row : list value)
    (columns : gmap string nat) :
  (Z.of_nat i < max_rows_to_check)%Z →
  data !! i = Some row →
  find_all_columns row = Ok columns →
  Spec.is_header_row row = true
  ∧ ∃ k first, find_header_row data max_rows_to_check = Ok (k, first) ∧ k ≤ i.
Proof.
  intros Hi Hrow Hok.
  assert (Hhdr := resolved_row_is_header row columns Hok).
  split; [exact Hhdr|].
  assert (Hlen := lookup_lt_Some _ _ _ Hrow).
  destruct (find_header_row_scan data max_rows_to_check)
    as [(k & first & Hres & Hk & Hlook & Hfirst & Hlow) | [_ Hnone]].
  - exists k, first. split; [exact Hres|].
    destruct (decide (k ≤ i)) as [Hle|Hgt]; [exact Hle|].
    rewrite (Hlow i row ltac:(lia) Hrow) in Hhdr. discriminate.
  - rewrite (Hnone i row ltac:(lia) Hrow) in Hhdr. discriminate.
Qed.

Lemma find_header_row_accepts_resolved_witness :
  Spec.is_header_row Example.merged_header = true
  ∧ ∃ k first,
      find_header_row [[PyStr "Stock"]; Example.merged_header] 10 = Ok (k, first)
      ∧ k ≤ 1.
Proof.
  destruct (find_all_columns Example.merged_header) as [columns|e] eqn:Hok;
    [|vm_compute in Hok; discriminate].
  apply (find_header_row_accepts_resolved
           [[PyStr "Stock"]; Example.merged_header] 10 1
           Example.merged_header columns); [lia | reflexivity | exact Hok].
Defined.

End LocatorResolver.

(** ** Further properties: integer cells *)

Section IntegerCells.
Import Report.

Lemma lstrip_free (sp : ascii → bool) (s : string) :
  Props.free_of sp s = true → Py.lstrip_with sp s = s.
Proof.
  destruct s as [|c s]; [reflexivity|]. simpl.
  intros [Hc _]%andb_true_iff. apply negb_true_iff in Hc. rewrite Hc. reflexivity.
Qed.

Lemma rstrip_free (sp : ascii → bool) (s : string) :
  Props.free_of sp s = true → Py.rstrip_with sp s = s.
Proof.
  induction s as [|c s IH]; [reflexivity|]. simpl.
  intros [Hc Hs]%andb_true_iff. apply negb_true_iff in Hc.
  rewrite (IH Hs), Hc. destruct s; reflexivity.
Qed.

Lemma remove_char_free (c : ascii) (s : string) :
  Props.free_of (Ascii.eqb c) s = true → Py.remove_char c s = s.
Proof.
  induction s as [|d s IH]; [reflexivity|]. cbn [Props.free_of Py.remove_char].
  intros [Hd Hs]%andb_true_iff. apply negb_true_iff in Hd.
  rewrite Hd, (IH Hs). reflexivity.
Qed.

Lemma digits_free (sp : ascii → bool) (ds : string) :
  (∀ c, Py.isdigit c = true → sp c = false) →
  Props.all_digits ds = true → Props.free_of sp ds = true.
Proof.
  intros Hsp. induction ds as [|c ds IH]; [reflexivity|]. simpl.
  intros [Hc Hds]%andb_true_iff. rewrite (Hsp c Hc), (IH Hds). reflexivity.
Qed.

(** A digit is no white space, no comma, no underscore, no sign and no
    letter, and lowering leaves it alone. *)
Lemma digit_facts (c : ascii) :
  Py.isdigit c = true →
  Py.isspace c = false ∧ Py.float_isspace c = false
  ∧ Ascii.eqb "," c = false ∧ Ascii.eqb c "_" = false
  ∧ Ascii.eqb c "-" = false ∧ Ascii.eqb c "+" = false
  ∧ Ascii.eqb (Py.lower_char c) "i" = false
  ∧ Ascii.eqb (Py.lower_char c) "n" = false.
Proof.
  destruct c as [[] [] [] [] [] [] [] []]; vm_compute; intros H;
    first [discriminate H | repeat split].
Qed.

Lemma drop_underscores_digits (prev : ascii) (ds : string) :
  Ascii.eqb prev "_" = false → Props.all_digits ds = true →
  Py.drop_underscores prev ds = Some ds.
Proof.
  revert prev. induction ds as [|c ds IH]; intros prev Hprev.
  - intros _. cbn [Py.drop_underscores]. rewrite Hprev. reflexivity.
  - cbn [Props.all_digits Py.drop_underscores].
    intros [Hc Hds]%andb_true_iff.
    destruct (digit_facts c Hc) as (_ & _ & _ & Hu & _).
    rewrite Hu, Hprev. cbn [andb]. rewrite (IH c Hu Hds). reflexivity.
Qed.

Lemma span_digits_all (ds : string) :
  Props.all_digits ds = true → Py.span_digits ds = (ds, EmptyString).
Proof.
  induction ds as [|c ds IH]; [reflexivity|]. cbn [Props.all_digits Py.span_digits].
  intros [Hc Hds]%andb_true_iff. rewrite Hc, (IH Hds). reflexivity.
Qed.

(** The literal after its sign: digits only. *)
Lemma parse_digits (neg : bool) (ds : string) :
  Props.all_digits ds = true → ds ≠ EmptyString →
  (if String.eqb (Py.lower ds) "inf" || String.eqb (Py.lower ds) "infinity"
   then Some (S754_infinity neg)
   else if String.eqb (Py.lower ds) "nan" then Some S754_nan
        else Py.parse_number neg ds) =
    Some (Py.binary64_of_decimal neg (Py.digits_value 0 ds) 0).
Proof.
  intros Hds Hne. destruct ds as [|c ds]; [congruence|].
  assert (Hc : Py.isdigit c = true)
    by (cbn [Props.all_digits] in Hds; apply andb_true_iff in Hds; tauto).
  destruct (digit_facts c Hc) as (_ & _ & _ & _ & _ & _ & Hi & Hn).
  cbn [Py.lower String.eqb]. rewrite Hi, Hn. cbn [orb].
  unfold Py.parse_number. rewrite (span_digits_all _ Hds).
  rewrite append_nil_r. reflexivity.
Qed.

Lemma parse_sign_digit (c : ascii) (ds : string) :
  Py.isdigit c = true → Py.parse_sign (String c ds) = (false, String c ds).
Proof.
  intros H. destruct c as [[] [] [] [] [] [] [] []];
    first [vm_compute in H; discriminate H | reflexivity].
Qed.

Lemma float_literal_digits (ds : string) :
  Props.all_digits ds = true → ds ≠ EmptyString →
  Py.float_literal ds =
    Some (Py.binary64_of_decimal false (Py.digits_value 0 ds) 0)
  ∧ Py.float_literal ("-" +:+ ds) =
      Some (Py.binary64_of_decimal true (Py.digits_value 0 ds) 0).
Proof.
  intros Hds Hne.
  assert (Hfree : Props.free_of Py.float_isspace ds = true)
    by (apply digits_free; [intros c Hc; apply (digit_facts c Hc) | exact Hds]).
  split.
  - unfold Py.float_literal.
    rewrite (lstrip_free _ _ Hfree), (rstrip_free _ _ Hfree).
    rewrite (drop_underscores_digits "000" ds eq_refl Hds). cbn [mbind option_bind].
    destruct ds as [|c ds]; [congruence|].
    assert (Hc : Py.isdigit c = true)
      by (cbn [Props.all_digits] in Hds; apply andb_true_iff in Hds; tauto).
    rewrite (parse_sign_digit c ds Hc). apply parse_digits; assumption.
  - unfold Py.float_literal.
    assert (Hfree' : Props.free_of Py.float_isspace ("-" +:+ ds) = true)
      by (rewrite append_cons, append_nil; cbn [Props.free_of]; rewrite Hfree;
          reflexivity).
    rewrite (lstrip_free _ _ Hfree'), (rstrip_free _ _ Hfree').
    rewrite append_cons, append_nil.
    change (Py.drop_underscores "000" (String "-" ds))
      with (String "-" <$> Py.drop_underscores "-" ds).
    rewrite (drop_underscores_digits "-" ds eq_refl Hds).
    cbn [fmap option_fmap option_map mbind option_bind Py.parse_sign].
    apply parse_digits; assumption.
Qed.

Lemma digits_value_acc (acc : Z) (s : string) :
  Py.digits_value acc s =
    (acc * 10 ^ Z.of_nat (String.length s) + Py.digits_value 0 s)%Z.
Proof.
  revert acc. induction s as [|c s IH]; intros acc.
  - simpl. lia.
  - cbn [Py.digits_value String.length]. rewrite (IH (10 * acc + _)%Z).
    rewrite (IH (10 * 0 + _)%Z). rewrite Nat2Z.inj_succ, Z.pow_succ_r by lia. lia.
Qed.

Lemma pretty_char_digit (d : N) :
  (d < 10)%N →
  Py.isdigit (pretty_N_char d) = true
  ∧ Py.digit_value (pretty_N_char d) = Z.of_N d.
Proof.
  intros Hd.
  assert (d = 0 ∨ d = 1 ∨ d = 2 ∨ d = 3 ∨ d = 4 ∨ d = 5 ∨ d = 6 ∨ d = 7
          ∨ d = 8 ∨ d = 9)%N as Hcases by lia.
  repeat (destruct Hcases as [->|Hcases]); try subst d; split; reflexivity.
Qed.

(** The digits that [pretty] puts before a text of digits. *)
Lemma pretty_go_digits (x : N) (s : string) :
  Props.all_digits s = true →
  Props.all_digits (pretty_N_go x s) = true
  ∧ Py.digits_value 0 (pretty_N_go x s) =
      (Z.of_N x * 10 ^ Z.of_nat (String.length s) + Py.digits_value 0 s)%Z
  ∧ (s ≠ EmptyString → pretty_N_go x s ≠ EmptyString).
Proof.
  revert s. induction (N.lt_wf_0 x) as [x _ IH]; intros s Hs.
  destruct (decide (x = 0%N)) as [->|Hx].
  - rewrite pretty_N_go_0. split; [exact Hs|]. split; [lia | auto].
  - rewrite pretty_N_go_step by lia.
    destruct (pretty_char_digit (x `mod` 10)%N) as [Hd Hv];
      [apply N.mod_lt; lia|].
    destruct (IH (x `div` 10)%N ltac:(apply N.div_lt; lia)
                 (String (pretty_N_char (x `mod` 10)) s))
      as (Hall & Hval & Hne).
    { cbn [Props.all_digits]. rewrite Hd, Hs. reflexivity. }
    split; [exact Hall|]. split; [|intros _; apply Hne; discriminate].
    rewrite Hval. cbn [Py.digits_value String.length].
    rewrite (digits_value_acc (10 * 0 + _)%Z), Hv.
    rewrite Nat2Z.inj_succ, Z.pow_succ_r by lia.
    assert (Hdiv := N.div_mod x 10 ltac:(lia)). lia.
Qed.

Lemma pretty_positive_digits (p : positive) :
  Props.all_digits (pretty (Npos p)) = true
  ∧ Py.digits_value 0 (pretty (Npos p)) = Z.pos p
  ∧ pretty (Npos p) ≠ EmptyString.
Proof.
  unfold pretty, pretty_N. destruct (decide (N.pos p = 0%N)) as [Hp|_];
    [discriminate Hp|].
  rewrite (pretty_N_go_step (N.pos p)) by lia.
  destruct (pretty_char_digit (N.pos p `mod` 10)%N) as [Hd Hv];
    [apply N.mod_lt; lia|].
  destruct (pretty_go_digits (N.pos p `div` 10)%N
              (String (pretty_N_char (N.pos p `mod` 10)) EmptyString))
    as (Hall & Hval & Hne).
  { cbn [Props.all_digits]. rewrite Hd. reflexivity. }
  split; [exact Hall|]. split; [|apply Hne; discriminate].
  rewrite Hval. cbn [Py.digits_value String.length]. rewrite Hv.
  assert (Hdiv := N.div_mod (N.pos p) 10 ltac:(lia)).
  change (10 ^ Z.of_nat 1)%Z with 10%Z. lia.
Qed.

(** X23: an [int] cell that [str] can print, one of at most 4300
    digits, always coerces, never to no value: zero to the float zero,
    any other such integer to the binary64 value nearest to it (its
    decimal text is parsed back, sign and all). *)
Theorem safe_float_int (z : Z) :
  (Z.abs z < 10 ^ 4300)%Z →
  safe_float (PyInt z) =
    Ok (Some (Py.binary64_of_decimal (z <? 0)%Z (Z.abs z) 0))
  ∧ (z = 0%Z → safe_float (PyInt z) = Ok (Some (S754_zero false))).
Proof.
  intros _. split; [|intros ->; reflexivity].
  rewrite safe_float_unfold. cbn [is_none is_empty_str orb Py.str].
  destruct z as [|p|p].
  - reflexivity.
  - destruct (pretty_positive_digits p) as (Hall & Hval & Hne).
    change (pretty (Z.pos p)) with (pretty (N.pos p)).
    rewrite remove_char_free
      by (apply digits_free; [intros c Hc; apply (digit_facts c Hc) | exact Hall]).
    unfold Py.strip.
    assert (Hfree : Props.free_of Py.isspace (pretty (N.pos p)) = true)
      by (apply digits_free; [intros c Hc; apply (digit_facts c Hc) | exact Hall]).
    rewrite (lstrip_free _ _ Hfree), (rstrip_free _ _ Hfree).
    rewrite (proj1 (float_literal_digits _ Hall Hne)), Hval. reflexivity.
  - destruct (pretty_positive_digits p) as (Hall & Hval & Hne).
    change (pretty (Z.neg p)) with ("-" +:+ pretty (N.pos p)).
    assert (Hcomma : Props.free_of (Ascii.eqb ",") ("-" +:+ pretty (N.pos p)) = true).
    { rewrite append_cons, append_nil. cbn [Props.free_of].
      rewrite (digits_free (Ascii.eqb ",") _
                 ltac:(intros c Hc; apply (digit_facts c Hc)) Hall). reflexivity. }
    assert (Hfree : Props.free_of Py.isspace ("-" +:+ pretty (N.pos p)) = true).
    { rewrite append_cons, append_nil. cbn [Props.free_of].
      rewrite (digits_free Py.isspace _
                 ltac:(intros c Hc; apply (digit_facts c Hc)) Hall). reflexivity. }
    rewrite (remove_char_free _ _ Hcomma). unfold Py.strip.
    rewrite (lstrip_free _ _ Hfree), (rstrip_free _ _ Hfree).
    rewrite (proj2 (float_literal_digits _ Hall Hne)), Hval. reflexivity.
Qed.

Lemma safe_float_int_witness :
  safe_float (PyInt (-2500)) =
    Ok (Some (Py.binary64_of_decimal true 2500 0)).
Proof.
  apply (safe_float_int (-2500)). vm_compute. reflexivity.
Defined.

End IntegerCells.
